(** * Kibana slice: the APM dashboard catalog and the log rate analysis
      results component

    Shallow embedding of
    - [dashboard_catalog.ts]: the table [AGENT_NAME_DASHBOARD_FILE_MAPPING]
      and the loader [loadDashboardFile];
    - [log_rate_analysis_results.tsx]: the handlers, effects and memoised
      values of the [LogRateAnalysisResults] component.

    A JS object used as a dictionary is a [gmap string string]; a React
    handler is a function from the values its closure captured at render
    time to a transformer of the mutable world (pending component state,
    refs, actions dispatched to the store). *)

From Stdlib Require Import PrimFloat.
From stdpp Require Import gmap strings list.

Local Open Scope string_scope.
Local Open Scope list_scope.

(* ===================================================================== *)
(** ** dashboard_catalog.ts *)
(* ===================================================================== *)

Module DashboardCatalog.

(** The object literal of lines 8-18, in source order. *)
Definition AGENT_NAME_DASHBOARD_FILE_MAPPING_entries : list (string * string) :=
  [ ("nodejs", "nodejs");
    ("opentelemetry/nodejs", "opentelemetry_nodejs");
    ("java", "java");
    ("opentelemetry/java", "opentelemetry_java");
    ("opentelemetry/java/opentelemetry-java-instrumentation", "opentelemetry_java");
    ("opentelemetry/java/elastic", "opentelemetry_java");
    ("opentelemetry/dotnet", "opentelemetry_dotnet");
    ("opentelemetry/dotnet/opentelemetry-dotnet-instrumentation", "opentelemetry_dotnet");
    ("opentelemetry/dotnet/elastic", "opentelemetry_dotnet") ].

(** [Record<string, string>]: the own properties of the object. *)
Definition AGENT_NAME_DASHBOARD_FILE_MAPPING : gmap string string :=
  list_to_map AGENT_NAME_DASHBOARD_FILE_MAPPING_entries.

(** A dynamic [import(...)] expression: the module specifier and the
    webpack chunk name given by the magic comment. *)
Record DynamicImport := mkImport {
  webpackChunkName : string;
  specifier : string
}.

(** What the promise returned by the async function is settled with:
    the promise of a dynamic import, or [undefined] when the function
    body falls off its end. *)
Inductive Returned :=
| ReturnImport (i : DynamicImport)
| ReturnUndefined.

(** [switch (filename)] compares with [===] case by case, top to bottom. *)
Definition loadDashboardFile (filename : string) : Returned :=
  if String.eqb filename "nodejs" then
    ReturnImport (mkImport "lazyNodeJsDashboard" "./nodejs.json")
  else if String.eqb filename "opentelemetry_nodejs" then
    ReturnImport (mkImport "lazyNodeJsDashboard" "./opentelemetry_nodejs.json")
  else if String.eqb filename "java" then
    ReturnImport (mkImport "lazyJavaDashboard" "./java.json")
  else if String.eqb filename "opentelemetry_java" then
    ReturnImport (mkImport "lazyJavaDashboard" "./opentelemetry_java.json")
  else if String.eqb filename "opentelemetry_dotnet" then
    ReturnImport (mkImport "lazyOtelDotnetDashboard" "./opentelemetry_dotnet.json")
  else
    ReturnUndefined.

(** The five dashboard bundles and the nine agent identifiers of the
    catalog's key space. *)
Definition bundle_names : list string :=
  [ "nodejs"; "opentelemetry_nodejs"; "java"; "opentelemetry_java";
    "opentelemetry_dotnet" ].

Definition agent_identifiers : list string :=
  [ "nodejs"; "opentelemetry/nodejs"; "java"; "opentelemetry/java";
    "opentelemetry/java/opentelemetry-java-instrumentation";
    "opentelemetry/java/elastic"; "opentelemetry/dotnet";
    "opentelemetry/dotnet/opentelemetry-dotnet-instrumentation";
    "opentelemetry/dotnet/elastic" ].

(** [loadDashboardFile(AGENT_NAME_DASHBOARD_FILE_MAPPING[key])]. Indexing
    with a key that has no entry yields a value that is none of the case
    labels ([undefined], or a member of [Object.prototype]), so the
    [switch] takes its default branch. *)
Definition loadDashboardForAgent (key : string) : Returned :=
  match AGENT_NAME_DASHBOARD_FILE_MAPPING !! key with
  | Some filename => loadDashboardFile filename
  | None => ReturnUndefined
  end.

(** The specifier is the file name between "./" and ".json". *)
Definition json_module (filename : string) : string :=
  ("./" ++ filename ++ ".json")%string.

End DashboardCatalog.

(* ===================================================================== *)
(** ** log_rate_analysis_results.tsx *)
(* ===================================================================== *)

Module LogRateAnalysis.

(** A JS [number] is an IEEE 754 binary64 value. *)
Abbreviation number := float.

(** [!x] on a number: [0], [-0] and [NaN] are falsy. *)
Definition falsy (x : number) : bool :=
  PrimFloat.eqb x 0%float || PrimFloat.is_nan x.

(** [!x] on a value of type [number | undefined]; when it is truthy the
    number is at hand. *)
Definition truthy (x : option number) : option number :=
  match x with
  | Some v => if falsy v then None else Some v
  | None => None
  end.

(** [Array.isArray(a) && a.length > 0] on a value of type
    [string[] | undefined]. *)
Definition nonEmptyArray {A} (a : option (list A)) : bool :=
  match a with
  | Some l => Nat.ltb 0 (length l)
  | None => false
  end.

(** Truthiness of a value of type [boolean | undefined]. *)
Definition isSet (b : option bool) : bool :=
  match b with
  | Some true => true
  | _ => false
  end.

(** [a.includes(d)] on an array of strings. *)
Definition includes (a : list string) (d : string) : bool :=
  existsb (String.eqb d) a.

(** [LOG_RATE_ANALYSIS_TYPE] and [LogRateAnalysisType]. *)
Inductive LogRateAnalysisType := SPIKE | DIP.

Record WindowParameters := mkWindowParameters {
  baselineMin : number;
  baselineMax : number;
  deviationMin : number;
  deviationMax : number
}.

Definition resultsGroupedOffId : string := "aiopsLogRateAnalysisGroupingOff".
Definition resultsGroupedOnId : string := "aiopsLogRateAnalysisGroupingOn".

(** The object behind [useRef(new AbortController())]: all that is
    observed of it is whether its signal has been aborted. *)
Record AbortController := mkAbortController { aborted : bool }.

(** The refs of the component (lines 184-185). *)
Record Refs := mkRefs {
  analysisStartTime : option number;
  abortCtrl : AbortController
}.

(** Slices of the store the component selects from. *)
Record LogRateAnalysisState := mkLogRateAnalysisState {
  s_analysisType : LogRateAnalysisType;
  s_earliest : option number;
  s_latest : option number;
  s_chartWindowParameters : option WindowParameters;
  s_sampleProbability : number;
  s_stickyHistogram : bool;
  s_isBrushCleared : bool
}.

Record StreamState := mkStreamState {
  s_isRunning : bool;
  s_errors : list string
}.

Record FieldCandidatesState := mkFieldCandidatesState {
  s_isLoading : bool;
  s_fieldFilterUniqueItems : list string;
  s_fieldFilterSkippedItems : list string;
  s_keywordFieldCandidates : list string;
  s_textFieldCandidates : list string
}.

Record DataView := mkDataView {
  dv_timeFieldName : option string;
  dv_getIndexPattern : string
}.

Record PerformanceMetricEvent := mkPerformanceMetricEvent {
  eventName : string;
  duration : number
}.

Section Component.

(** Types and functions the component imports from other packages. *)
Context {SignificantItem SearchQuery Http : Type}.
Context (JSON_stringify : SearchQuery -> string).
Context (getSwappedWindowParameters : WindowParameters -> WindowParameters).
Context (AIOPS_ANALYSIS_RUN_ORIGIN : string).

(** [AiopsLogRateAnalysisSchema['overrides']]: every key is optional. *)
Record Overrides := mkOverrides {
  o_loaded : option number;
  o_remainingKeywordFieldCandidates : option (list string);
  o_remainingTextFieldCandidates : option (list string);
  o_significantItems : option (list SignificantItem);
  o_regroupOnly : option bool
}.

(** [s.logRateAnalysisResults]. *)
Record ResultsState := mkResultsState {
  d_loaded : number;
  d_remainingKeywordFieldCandidates : option (list string);
  d_remainingTextFieldCandidates : option (list string);
  d_groupsMissing : option bool;
  d_significantItems : list SignificantItem;
  d_errors : list string;
  d_loadingState : option string;
  d_currentAnalysisWindowParameters : option WindowParameters
}.

Record Store := mkStore {
  logRateAnalysis : LogRateAnalysisState;
  logRateAnalysisStream : StreamState;
  logRateAnalysisResults : ResultsState;
  logRateAnalysisFieldCandidates : FieldCandidatesState
}.

(** The [useState] cells (lines 188-199). *)
Record State := mkState {
  st_groupResults : bool;
  st_overrides : option Overrides;
  st_shouldStart : bool;
  st_toggleIdSelected : string;
  st_skippedColumns : list string;
  st_skippedFields : option (list string)
}.

(** The request body of [startParams] (lines 335-351). The four keys
    spread from the window parameters are kept together. *)
Record Body := mkBody {
  b_start : number;
  b_end : number;
  b_searchQuery : string;
  b_timeFieldName : string;
  b_index : string;
  b_grouping : bool;
  b_flushFix : bool;
  b_windowParameters : WindowParameters;
  b_overrides : option Overrides;
  b_sampleProbability : number
}.

(** [startParams]. The ref object [abortCtrl] is passed by reference:
    it is the location of the controller among the refs, so whoever
    holds the parameters reads the controller the component mutates. *)
Record StartParams := mkStartParams {
  p_http : Http;
  p_endpoint : string;
  p_apiVersion : string;
  p_abortCtrl : Refs -> AbortController;
  p_body : Body;
  p_headers : list (string * string)
}.

(** Actions the component dispatches to the store. *)
Inductive Action :=
| clearAllRowState
| resetResults
| cancelStream
| setCurrentAnalysisType (t : LogRateAnalysisType)
| setCurrentAnalysisWindowParameters (wp : option WindowParameters)
| fetchFieldCandidates (p : StartParams)
| startStream (p : StartParams).

(** Everything a render closes over: props, context, store selections
    and the state cells as they were when the component rendered. *)
Record Render := mkRender {
  searchQuery : SearchQuery;
  http : Http;
  embeddingOrigin : string;
  dataView : DataView;
  store : Store;
  state : State
}.

(** What handlers and effects act on: the state the next render will
    see, the refs, the actions dispatched so far and the performance
    events reported so far. *)
Record World := mkWorld {
  next : State;
  refs : Refs;
  dispatched : list Action;
  reported : list PerformanceMetricEvent
}.

(** The destructuring of lines 168-180 and 209-214. *)
Definition analysisType r := s_analysisType (logRateAnalysis (store r)).
Definition earliest r := s_earliest (logRateAnalysis (store r)).
Definition latest r := s_latest (logRateAnalysis (store r)).
Definition chartWindowParameters r :=
  s_chartWindowParameters (logRateAnalysis (store r)).
Definition sampleProbability r :=
  s_sampleProbability (logRateAnalysis (store r)).
Definition isRunning r := s_isRunning (logRateAnalysisStream (store r)).
Definition streamErrors r := s_errors (logRateAnalysisStream (store r)).
Definition data r := logRateAnalysisResults (store r).
Definition fieldCandidates r := logRateAnalysisFieldCandidates (store r).
Definition fieldFilterSkippedItems r :=
  s_fieldFilterSkippedItems (fieldCandidates r).
Definition keywordFieldCandidates r :=
  s_keywordFieldCandidates (fieldCandidates r).
Definition textFieldCandidates r :=
  s_textFieldCandidates (fieldCandidates r).
Definition groupResults r := st_groupResults (state r).
Definition overrides r := st_overrides (state r).
Definition shouldStart r := st_shouldStart (state r).
Definition skippedFields r := st_skippedFields (state r).

(** *** Commands *)

Definition Command := World -> World.
Definition Handler := Render -> Command.

Definition skip : Command := fun w => w.
Definition andThen (c1 c2 : Command) : Command := fun w => c2 (c1 w).

Definition setState (f : State -> State) : Command := fun w =>
  mkWorld (f (next w)) (refs w) (dispatched w) (reported w).

Definition setGroupResults (v : bool) : Command :=
  setState (fun s =>
    mkState v (st_overrides s) (st_shouldStart s) (st_toggleIdSelected s)
            (st_skippedColumns s) (st_skippedFields s)).
Definition setOverrides (v : option Overrides) : Command :=
  setState (fun s =>
    mkState (st_groupResults s) v (st_shouldStart s) (st_toggleIdSelected s)
            (st_skippedColumns s) (st_skippedFields s)).
Definition setShouldStart (v : bool) : Command :=
  setState (fun s =>
    mkState (st_groupResults s) (st_overrides s) v (st_toggleIdSelected s)
            (st_skippedColumns s) (st_skippedFields s)).
Definition setToggleIdSelected (v : string) : Command :=
  setState (fun s =>
    mkState (st_groupResults s) (st_overrides s) (st_shouldStart s) v
            (st_skippedColumns s) (st_skippedFields s)).
Definition setSkippedColumns (v : list string) : Command :=
  setState (fun s =>
    mkState (st_groupResults s) (st_overrides s) (st_shouldStart s)
            (st_toggleIdSelected s) v (st_skippedFields s)).
Definition setSkippedFields (v : option (list string)) : Command :=
  setState (fun s =>
    mkState (st_groupResults s) (st_overrides s) (st_shouldStart s)
            (st_toggleIdSelected s) (st_skippedColumns s) v).

Definition dispatch (a : Action) : Command := fun w =>
  mkWorld (next w) (refs w) (dispatched w ++ [a]) (reported w).

(** [abortCtrl.current.abort()]. *)
Definition abort : Command := fun w =>
  mkWorld (next w)
          (mkRefs (analysisStartTime (refs w)) (mkAbortController true))
          (dispatched w) (reported w).

(** [analysisStartTime.current = v]. *)
Definition setAnalysisStartTime (v : option number) : Command := fun w =>
  mkWorld (next w) (mkRefs v (abortCtrl (refs w)))
          (dispatched w) (reported w).

Definition reportPerformanceMetricEvent (e : PerformanceMetricEvent)
  : Command := fun w =>
  mkWorld (next w) (refs w) (dispatched w) (reported w ++ [e]).


Local Infix ">>" := andThen (at level 61, left associativity).

(** *** Initial state and refs (lines 184-199) *)

(** [skippedColumns] comes from local storage, the given value being
    its default; [null] marks [skippedFields] as uninitialised. *)
Definition defaultSkippedColumns : list string :=
  ["p-value"; "Baseline rate"; "Deviation rate"].

Definition initialState (storedColumns : option (list string)) : State :=
  mkState false None false resultsGroupedOffId
          (default defaultSkippedColumns storedColumns) None.

(** [now] is the reading of [window.performance.now()] at mount. *)
Definition initialRefs (now : number) : Refs :=
  mkRefs (Some now) (mkAbortController false).

Definition initialWorld (storedColumns : option (list string))
           (now : number) : World :=
  mkWorld (initialState storedColumns) (initialRefs now) [] [].

(** *** Memoised values *)

(** Line 293. *)
Definition errors (r : Render) : list string :=
  streamErrors r ++ d_errors (data r).

(** Lines 325-365. *)
Definition startParams (r : Render) : option StartParams :=
  match chartWindowParameters r, truthy (earliest r), truthy (latest r) with
  | Some cwp, Some earliest, Some latest =>
      Some (mkStartParams
        (http r)
        "/internal/aiops/log_rate_analysis"
        "3"
        abortCtrl
        (mkBody
           earliest
           latest
           (JSON_stringify (searchQuery r))
           (default "" (dv_timeFieldName (dataView r)))
           (dv_getIndexPattern (dataView r))
           true
           true
           (match analysisType r with
            | SPIKE => cwp
            | _ => getSwappedWindowParameters cwp
            end)
           (overrides r)
           (sampleProbability r))
        [(AIOPS_ANALYSIS_RUN_ORIGIN, embeddingOrigin r)])
  | _, _, _ => None
  end.

(** *** Handlers *)

(** Lines 201-207. *)
Definition onGroupResultsToggle (optionId : string) : Handler := fun r =>
  setToggleIdSelected optionId >>
  setGroupResults (String.eqb optionId resultsGroupedOnId) >>
  dispatch clearAllRowState.

(** The filter callback of lines 302 and 305. *)
Definition notSkipped (skipped : option (list string)) (d : string) : bool :=
  match skipped with
  | None => true
  | Some l => negb (includes l d)
  end.

(** Lines 297-323. *)
Definition startHandler (continueAnalysis resetGroupButton : bool)
  : Handler := fun r =>
  (if negb continueAnalysis then
     dispatch resetResults >>
     setOverrides (Some (mkOverrides
       None
       (Some (List.filter (notSkipped (skippedFields r))
                          (keywordFieldCandidates r)))
       (Some (List.filter (notSkipped (skippedFields r))
                          (textFieldCandidates r)))
       None
       None))
   else skip) >>
  (if resetGroupButton then
     setGroupResults false >>
     setToggleIdSelected resultsGroupedOffId >>
     dispatch clearAllRowState
   else skip) >>
  dispatch (setCurrentAnalysisType (analysisType r)) >>
  dispatch (setCurrentAnalysisWindowParameters (chartWindowParameters r)) >>
  setShouldStart true.

(** Lines 224-238. *)
Definition onFieldsFilterChange (skippedFieldsUpdate : list string)
  : Handler := fun r =>
  dispatch resetResults >>
  setSkippedFields (Some skippedFieldsUpdate) >>
  setOverrides (Some (mkOverrides
    (Some 0%float)
    (Some (List.filter (fun d => negb (includes skippedFieldsUpdate d))
                       (keywordFieldCandidates r)))
    (Some (List.filter (fun d => negb (includes skippedFieldsUpdate d))
                       (textFieldCandidates r)))
    None
    (Some false))) >>
  startHandler true false r.

(** Lines 240-242. *)
Definition onVisibleColumnsChange (columns : list string) : Handler :=
  fun r => setSkippedColumns columns.

(** Lines 244-247. *)
Definition cancelHandler : Handler := fun r =>
  abort >>
  dispatch cancelStream.

(** [onRefresh] of line 440 and [onClick] of line 528. *)
Definition onRefresh : Handler := startHandler false true.
Definition onTryToContinue : Handler := startHandler true true.

(** *** Effects *)

(** Lines 219-222. *)
Definition skippedFieldsEffect : Handler := fun r =>
  match skippedFields r with
  | None =>
      if Nat.ltb 0 (length (fieldFilterSkippedItems r))
      then setSkippedFields (Some (fieldFilterSkippedItems r))
      else skip
  | Some _ => skip
  end.

(** Lines 249-291; [now] is the reading of [window.performance.now()]
    of line 278. The ref is read from the world, not from the render. *)
Definition isRunningEffect (now : number) : Handler := fun r =>
  if negb (isRunning r) then
    let loaded := d_loaded (data r) in
    let remainingKeywordFieldCandidates :=
      d_remainingKeywordFieldCandidates (data r) in
    let remainingTextFieldCandidates :=
      d_remainingTextFieldCandidates (data r) in
    let groupsMissing := d_groupsMissing (data r) in
    if PrimFloat.ltb loaded 1%float &&
       (nonEmptyArray remainingKeywordFieldCandidates ||
        nonEmptyArray remainingTextFieldCandidates ||
        isSet groupsMissing)
    then
      setOverrides (Some (mkOverrides
        (Some loaded)
        remainingKeywordFieldCandidates
        remainingTextFieldCandidates
        (Some (d_significantItems (data r)))
        None))
    else if PrimFloat.ltb 0%float loaded then
      setOverrides None >>
      (fun w =>
         match analysisStartTime (refs w) with
         | Some started =>
             (setAnalysisStartTime None >>
              reportPerformanceMetricEvent
                (mkPerformanceMetricEvent "aiopsLogRateAnalysisCompleted"
                                          (PrimFloat.sub now started))) w
         | None => w
         end)
    else skip
  else skip.

(** Lines 367-373. *)
Definition shouldStartEffect : Handler := fun r =>
  if shouldStart r then
    match startParams r with
    | Some p => dispatch (startStream p) >> setShouldStart false
    | None => skip
    end
  else skip.

(** Lines 375-383. *)
Definition mountEffect : Handler := fun r =>
  match startParams r with
  | Some p =>
      dispatch (fetchFieldCandidates p) >>
      dispatch (setCurrentAnalysisType (analysisType r)) >>
      dispatch (setCurrentAnalysisWindowParameters
                  (chartWindowParameters r)) >>
      dispatch (startStream p)
  | None => skip
  end.

(** *** Commit phase

    After a render React runs, in source order, the effects whose
    dependencies differ from those of the previous render; all of them
    on mount, when there is no previous render. [isRunning] and
    [shouldStart] are booleans, compared by value. The dependencies of
    [skippedFieldsEffect] are arrays, compared by identity: whether
    one of them is a new array is reported in [arrayDepsChanged]. *)
Definition changed {A} `{EqDecision A} (dep : Render -> A)
           (prev : option Render) (r : Render) : bool :=
  match prev with
  | None => true
  | Some p => negb (bool_decide (dep p = dep r))
  end.

Definition onMountOr (prev : option Render) (depsChanged : bool) : bool :=
  match prev with
  | None => true
  | Some _ => depsChanged
  end.

Definition commitEffects (prev : option Render)
           (arrayDepsChanged : bool) (now : number) : Handler := fun r =>
  (if onMountOr prev arrayDepsChanged
   then skippedFieldsEffect r else skip) >>
  (if changed isRunning prev r then isRunningEffect now r else skip) >>
  (if changed shouldStart prev r then shouldStartEffect r else skip) >>
  (if prev is None then mountEffect r else skip).

(** The render that follows: the same closure over the new props and
    store selections, with the state cells as the handlers and effects
    left them. *)
Definition rerender (r : Render) (w : World) : Render :=
  mkRender (searchQuery r) (http r) (embeddingOrigin r) (dataView r)
           (store r) (next w).

(** *** The error call-out (lines 500-541) *)

Inductive ErrorList :=
| Paragraph (e : option string)
| UnorderedList (items : list (nat * string)).

Record ErrorCallOut := mkErrorCallOut {
  errorCount : nat;
  errorList : ErrorList;
  tryToContinueButton : option Handler
}.

Definition renderErrorCallOut (r : Render) : option ErrorCallOut :=
  if Nat.ltb 0 (length (errors r)) then
    Some (mkErrorCallOut
      (length (errors r))
      (if Nat.eqb (length (errors r)) 1
       then Paragraph (errors r !! 0%nat)
       else UnorderedList (imap (fun i e => (i, e)) (errors r)))
      (match overrides r with
       | Some _ => Some onTryToContinue
       | None => None
       end))
  else None.


(** *** Vocabulary of the statements *)

(** A value of type [string[] | undefined] that is an array with at
    least one element. *)
Definition isNonEmptyArray {A} (a : option (list A)) : Prop :=
  exists x l, a = Some (x :: l).

(** The partial results can be resumed: less than everything is loaded
    and field candidates remain or the groups are missing. *)
Definition resumable (d : ResultsState) : Prop :=
  PrimFloat.ltb (d_loaded d) 1%float = true /\
  (isNonEmptyArray (d_remainingKeywordFieldCandidates d) \/
   isNonEmptyArray (d_remainingTextFieldCandidates d) \/
   d_groupsMissing d = Some true).

(** The overrides that carry the partial results of [d]. *)
Definition partialResults (d : ResultsState) : Overrides :=
  {| o_loaded := Some (d_loaded d);
     o_remainingKeywordFieldCandidates := d_remainingKeywordFieldCandidates d;
     o_remainingTextFieldCandidates := d_remainingTextFieldCandidates d;
     o_significantItems := Some (d_significantItems d);
     o_regroupOnly := None |}.

(** The store changes (or the component re-renders for another
    reason): the component renders over the new store selections and
    the commit phase runs. A render caused by an effect's own state
    update is the case of an unchanged store. *)
Record StoreUpdate := mkStoreUpdate {
  u_store : Store;
  u_arrayDepsChanged : bool;
  u_now : number
}.

Definition storeUpdate (u : StoreUpdate) (rw : Render * World)
  : Render * World :=
  let r' := mkRender (searchQuery rw.1) (http rw.1) (embeddingOrigin rw.1)
                     (dataView rw.1) (u_store u) (next rw.2) in
  (r', commitEffects (Some rw.1) (u_arrayDepsChanged u) (u_now u) r' rw.2).

Definition storeUpdates (us : list StoreUpdate) (rw : Render * World)
  : Render * World :=
  foldl (fun acc u => storeUpdate u acc) rw us.

(** *** The wiring of the handlers (lines 435-498 and 523-529)

    What the user can do to the component, and the handler each control
    is given. *)

Inductive UserAction :=
| ToggleGroupResults (optionId : string)
| ApplyFieldsFilter (skippedFieldsUpdate : list string)
| ApplyVisibleColumns (columns : list string)
| Cancel
| Refresh
| TryToContinue.

Definition handle (a : UserAction) : Handler :=
  match a with
  | ToggleGroupResults optionId => onGroupResultsToggle optionId
  | ApplyFieldsFilter skippedFieldsUpdate =>
      onFieldsFilterChange skippedFieldsUpdate
  | ApplyVisibleColumns columns => onVisibleColumnsChange columns
  | Cancel => cancelHandler
  | Refresh => onRefresh
  | TryToContinue => onTryToContinue
  end.

(** The actions a handler dispatches, read off its body. *)
Definition handlerActions (a : UserAction) (r : Render) : list Action :=
  match a with
  | ToggleGroupResults _ => [clearAllRowState]
  | ApplyFieldsFilter _ =>
      [resetResults;
       setCurrentAnalysisType (analysisType r);
       setCurrentAnalysisWindowParameters (chartWindowParameters r)]
  | ApplyVisibleColumns _ => []
  | Cancel => [cancelStream]
  | Refresh =>
      [resetResults; clearAllRowState;
       setCurrentAnalysisType (analysisType r);
       setCurrentAnalysisWindowParameters (chartWindowParameters r)]
  | TryToContinue =>
      [clearAllRowState;
       setCurrentAnalysisType (analysisType r);
       setCurrentAnalysisWindowParameters (chartWindowParameters r)]
  end.

(** *** The life of a mounted component

    An event is a user action or new props and store selections. Either
    way the component renders again, over the state cells as they then
    are, and the commit phase runs. Of [env] only the props, context and
    store are used. *)
Inductive Event :=
| UserEvent (a : UserAction) (arrayDepsChanged : bool) (now : number)
| RenderEvent (env : Render) (arrayDepsChanged : bool) (now : number).

Definition step (e : Event) (rw : Render * World) : Render * World :=
  match e with
  | UserEvent a c now =>
      let w1 := handle a rw.1 rw.2 in
      let r' := rerender rw.1 w1 in
      (r', commitEffects (Some rw.1) c now r' w1)
  | RenderEvent env c now =>
      let r' := rerender env rw.2 in
      (r', commitEffects (Some rw.1) c now r' rw.2)
  end.

Definition run (es : list Event) (rw : Render * World) : Render * World :=
  foldl (fun acc e => step e acc) rw es.

(** The first render, over the initial state cells, and its commit
    phase. [started] and [now] are the clock readings of lines 184 and
    278. *)
Definition mount (env : Render) (storedColumns : option (list string))
           (started now : number) : Render * World :=
  let r := mkRender (searchQuery env) (http env) (embeddingOrigin env)
                    (dataView env) (store env) (initialState storedColumns) in
  (r, commitEffects None true now r (initialWorld storedColumns started)).

(** The actions wired to [startHandler], directly or through
    [onFieldsFilterChange]. *)
Definition startsAnalysis (a : UserAction) : bool :=
  match a with
  | ApplyFieldsFilter _ | Refresh | TryToContinue => true
  | ToggleGroupResults _ | ApplyVisibleColumns _ | Cancel => false
  end.

Definition isApplyFieldsFilter (e : Event) : bool :=
  match e with
  | UserEvent (ApplyFieldsFilter _) _ _ => true
  | _ => false
  end.

Definition isStartStream (a : Action) : bool :=
  match a with startStream _ => true | _ => false end.

Definition isFetchFieldCandidates (a : Action) : bool :=
  match a with fetchFieldCandidates _ => true | _ => false end.

(** *** What is shown (lines 410-418 and 542-601) *)

(** The rows of the groups table come from [getGroupTableItems], of
    another module; of a row only its items are looked at. *)
Context {GroupTableItem GroupItem : Type}.
Context (groupItemsSortedByUniqueness : GroupTableItem -> list GroupItem).

Definition showLogRateAnalysisResultsTable (r : Render) : bool :=
  Nat.ltb 0 (length (d_significantItems (data r))).

Definition groupItemCount (groupTableItems : list GroupTableItem) : nat :=
  foldl (fun p c => (p + length (groupItemsSortedByUniqueness c))%nat)
        0%nat groupTableItems.

Definition foundGroups (groupTableItems : list GroupTableItem) : bool :=
  Nat.ltb 0 (length groupTableItems) &&
  Nat.ltb 0 (groupItemCount groupTableItems).

Definition disabledGroupResultsSwitch
           (groupTableItems : list GroupTableItem) (r : Render) : bool :=
  negb (foundGroups groupTableItems) && negb (groupResults r).

(** Lines 542-547, 549-570, 584-593 and 594-601. *)
Definition showsGroupResultsHelp
           (groupTableItems : list GroupTableItem) (r : Render) : bool :=
  showLogRateAnalysisResultsTable r && groupResults r &&
  foundGroups groupTableItems.

Definition showsEmptyPrompt (r : Render) : bool :=
  negb (isRunning r) && negb (showLogRateAnalysisResultsTable r).

Definition showsGroupsTable (r : Render) : bool :=
  showLogRateAnalysisResultsTable r && groupResults r.

Definition showsResultsTable (r : Render) : bool :=
  showLogRateAnalysisResultsTable r && negb (groupResults r).

(** *** The search query memo (lines 186 and 390-401)

    [isEqual] is lodash's deep comparison. The memo reads and writes the
    [previousSearchQuery] ref: it takes the ref's content and returns the
    flag together with the new content. *)
Context (isEqual : SearchQuery -> SearchQuery -> bool).


End Component.

(** *** Sample data

    A component over string-valued significant items and search
    queries, with a trivial HTTP service. *)

(** An instance of the imported function: it exchanges baseline and
    deviation, as the comment of lines 344-345 describes. *)
Definition swapBaselineAndDeviation (wp : WindowParameters)
  : WindowParameters :=
  mkWindowParameters (deviationMin wp) (deviationMax wp)
                     (baselineMin wp) (baselineMax wp).

Definition sampleWindow : WindowParameters :=
  mkWindowParameters 10%float 20%float 30%float 40%float.

Definition sampleCandidates : FieldCandidatesState :=
  mkFieldCandidatesState false
    ["host.name"; "message"; "url.path"] ["url.path"]
    ["host.name"; "url.path"] ["message"].

Definition sampleAnalysis (t : LogRateAnalysisType)
           (cwp : option WindowParameters) : LogRateAnalysisState :=
  mkLogRateAnalysisState t (Some 1000%float) (Some 2000%float) cwp
                         1%float false false.

(** Partial results: half of the analysis loaded, one keyword field
    still to do. *)
Definition partialData : @ResultsState string :=
  mkResultsState 0.5%float (Some ["host.name"]) (Some []) (Some false)
                 ["response_code:500"] ["partial failure"] None
                 (Some sampleWindow).

(** Complete results. *)
Definition completeData : @ResultsState string :=
  mkResultsState 1%float (Some []) (Some []) (Some false)
                 ["response_code:500"] [] None (Some sampleWindow).

Definition sampleStore (t : LogRateAnalysisType)
           (cwp : option WindowParameters) (running : bool)
           (streamErrs : list string) (d : @ResultsState string)
  : @Store string :=
  mkStore (sampleAnalysis t cwp) (mkStreamState running streamErrs) d
          sampleCandidates.

Definition sampleDataView : DataView :=
  mkDataView (Some "@timestamp") "logs-*".

Definition sampleRender (s : @Store string) (st : @State string)
  : @Render string string unit :=
  mkRender "{match_all}" tt "dashboard" sampleDataView s st.

Definition sampleWorld : @World string unit :=
  initialWorld None 0%float.

Definition runningRender : @Render string string unit :=
  sampleRender (sampleStore SPIKE (Some sampleWindow) true [] partialData)
               (initialState None).

Definition stoppedRender : @Render string string unit :=
  sampleRender (sampleStore SPIKE (Some sampleWindow) false
                            ["stream closed"] partialData)
               (initialState None).

Definition completedRender : @Render string string unit :=
  sampleRender (sampleStore SPIKE (Some sampleWindow) false [] completeData)
               (initialState None).

Definition dipRender : @Render string string unit :=
  sampleRender (sampleStore DIP (Some sampleWindow) false [] completeData)
               (initialState None).

Definition noWindowRender : @Render string string unit :=
  sampleRender (sampleStore SPIKE None false [] completeData)
               (initialState None).

Definition sampleOrigin : string := "aiops-analysis-run-origin".

(** A user who refreshes, after which the store delivers complete results
    and the user asks to continue. *)
Definition sampleEvents : list (@Event string string unit) :=
  [ UserEvent Refresh true 1%float;
    RenderEvent completedRender true 2%float;
    UserEvent TryToContinue false 3%float ].

(** Rows of a groups table, each reduced to its items. *)
Definition sampleGroups : list (list string) :=
  [ []; ["response_code:500"; "url.path:/login"] ].

(* =================================================================== *)
(** *** Properties of the component *)
(* =================================================================== *)

Section ComponentFacts.

Context {SignificantItem SearchQuery Http : Type}.
Context (JSON_stringify : SearchQuery -> string).
Context (getSwappedWindowParameters : WindowParameters -> WindowParameters).
Context (AIOPS_ANALYSIS_RUN_ORIGIN : string).

Local Abbreviation Render := (@Render SignificantItem SearchQuery Http).
Local Abbreviation World := (@World SignificantItem Http).
Local Abbreviation ResultsState := (@ResultsState SignificantItem).
Local Abbreviation StartParams := (@StartParams SignificantItem Http).
Local Abbreviation startParams :=
  (startParams JSON_stringify getSwappedWindowParameters
               AIOPS_ANALYSIS_RUN_ORIGIN).
Local Abbreviation shouldStartEffect :=
  (shouldStartEffect JSON_stringify getSwappedWindowParameters
                     AIOPS_ANALYSIS_RUN_ORIGIN).
Local Abbreviation mountEffect :=
  (mountEffect JSON_stringify getSwappedWindowParameters
               AIOPS_ANALYSIS_RUN_ORIGIN).
Local Abbreviation commitEffects :=
  (commitEffects JSON_stringify getSwappedWindowParameters
                 AIOPS_ANALYSIS_RUN_ORIGIN).
Local Abbreviation storeUpdate :=
  (storeUpdate JSON_stringify getSwappedWindowParameters
               AIOPS_ANALYSIS_RUN_ORIGIN).
Local Abbreviation storeUpdates :=
  (storeUpdates JSON_stringify getSwappedWindowParameters
                AIOPS_ANALYSIS_RUN_ORIGIN).

(** *** Frame lemmas *)

Ltac unfold_commands :=
  unfold andThen, skip, setOverrides, setShouldStart, setGroupResults,
    setToggleIdSelected, setSkippedFields, setSkippedColumns, setState,
    dispatch, abort, setAnalysisStartTime, reportPerformanceMetricEvent.

Lemma nonEmptyArray_spec {A} (a : option (list A)) :
  nonEmptyArray a = true <-> isNonEmptyArray a.
Proof.
  unfold isNonEmptyArray. destruct a as [[|x l]|]; simpl; split.
  all: try discriminate.
  - intros (x & l & H). discriminate.
  - eauto.
  - reflexivity.
  - intros (x & l & H). discriminate.
Qed.

Lemma isSet_spec (b : option bool) : isSet b = true <-> b = Some true.
Proof. destruct b as [[|]|]; simpl; split; congruence. Qed.

Lemma resumable_spec (d : ResultsState) :
  PrimFloat.ltb (d_loaded d) 1%float &&
    (nonEmptyArray (d_remainingKeywordFieldCandidates d) ||
     nonEmptyArray (d_remainingTextFieldCandidates d) ||
     isSet (d_groupsMissing d)) = true <-> resumable d.
Proof.
  unfold resumable.
  rewrite andb_true_iff, !orb_true_iff, !nonEmptyArray_spec, isSet_spec.
  tauto.
Qed.

Lemma stream_stopped_changed (prev r : Render) :
  isRunning prev = true -> isRunning r = false ->
  changed isRunning (Some prev) r = true.
Proof. unfold changed. by intros -> ->. Qed.

Lemma skippedFieldsEffect_dispatched (r : Render) (w : World) :
  dispatched (skippedFieldsEffect r w) = dispatched w.
Proof.
  unfold skippedFieldsEffect. destruct (skippedFields r); [reflexivity|].
  by destruct (Nat.ltb _ _).
Qed.

Lemma isRunningEffect_dispatched now (r : Render) (w : World) :
  dispatched (isRunningEffect now r w) = dispatched w.
Proof.
  unfold isRunningEffect. destruct (negb (isRunning r)); [|reflexivity].
  cbv zeta. destruct (_ && _); [reflexivity|].
  destruct (PrimFloat.ltb _ _); [|reflexivity].
  unfold_commands. cbn. by destruct (analysisStartTime (refs w)).
Qed.

(** The commit phase of a re-render dispatches [startStream], and nothing
    else, exactly when [shouldStart] has just been raised and
    [startParams] is defined. *)
Lemma commitEffects_dispatched (prev r : Render) c now (w : World) :
  dispatched (commitEffects (Some prev) c now r w) =
    dispatched w ++
      (if negb (shouldStart prev) && shouldStart r
       then match startParams r with Some p => [startStream p] | None => [] end
       else []).
Proof.
  assert (Hpre : forall w0 : World,
            dispatched ((if changed isRunning (Some prev) r
                         then isRunningEffect now r else skip)
                          ((if onMountOr (Some prev) c
                            then skippedFieldsEffect r else skip) w0))
            = dispatched w0).
  { intros w0. destruct (changed isRunning (Some prev) r);
      destruct (onMountOr (Some prev) c); unfold skip;
      by rewrite ?isRunningEffect_dispatched, ?skippedFieldsEffect_dispatched. }
  assert (Hch : changed shouldStart (Some prev) r
                = xorb (shouldStart prev) (shouldStart r)).
  { unfold changed. by destruct (shouldStart prev), (shouldStart r). }
  assert (Hskip : forall w0 : World, skip w0 = w0) by reflexivity.
  unfold commitEffects, andThen. rewrite Hch. unfold shouldStartEffect.
  destruct (shouldStart prev), (shouldStart r); cbn [xorb negb andb];
    rewrite !Hskip; try by rewrite Hpre, app_nil_r.
  destruct (startParams r); unfold_commands; cbn [dispatched];
    by rewrite ?Hskip, Hpre, ?app_nil_r.
Qed.

Lemma skippedFieldsEffect_overrides (r : Render) (w : World) :
  st_overrides (next (skippedFieldsEffect r w)) = st_overrides (next w).
Proof.
  unfold skippedFieldsEffect. destruct (skippedFields r); [reflexivity|].
  destruct (Nat.ltb _ _); reflexivity.
Qed.

Lemma shouldStartEffect_overrides (r : Render) (w : World) :
  st_overrides (next (shouldStartEffect r w)) = st_overrides (next w).
Proof.
  unfold shouldStartEffect. destruct (shouldStart r); [|reflexivity].
  destruct (startParams r); reflexivity.
Qed.

Lemma startHandler_continue_overrides g (r : Render) (w : World) :
  st_overrides (next (startHandler true g r w)) = st_overrides (next w).
Proof. unfold startHandler. destruct g; reflexivity. Qed.

Lemma startParams_overrides (r : Render) p :
  startParams r = Some p -> b_overrides (p_body p) = overrides r.
Proof.
  unfold startParams. intros H.
  destruct (chartWindowParameters r), (truthy (earliest r)),
    (truthy (latest r)); try discriminate.
  injection H as <-. reflexivity.
Qed.

Lemma isRunningEffect_stopped_resumable now (r : Render) (w : World) :
  isRunning r = false -> resumable (data r) ->
  st_overrides (next (isRunningEffect now r w)) =
    Some (partialResults (data r)).
Proof.
  intros Hrun Hres. apply resumable_spec in Hres.
  unfold isRunningEffect. rewrite Hrun. cbn [negb].
  cbv zeta. rewrite Hres. reflexivity.
Qed.

Lemma isRunningEffect_stopped_loaded now (r : Render) (w : World) :
  isRunning r = false -> ~ resumable (data r) ->
  PrimFloat.ltb 0%float (d_loaded (data r)) = true ->
  st_overrides (next (isRunningEffect now r w)) = None.
Proof.
  intros Hrun Hres Hpos. rewrite <- resumable_spec in Hres.
  apply not_true_is_false in Hres.
  unfold isRunningEffect. rewrite Hrun. cbn [negb].
  cbv zeta. rewrite Hres, Hpos. unfold_commands. cbn.
  destruct (analysisStartTime (refs w)); reflexivity.
Qed.

(** *** Behaviour of the handlers and effects *)

(** C3. When the commit phase sees [isRunning] go from true to false:
    if the result data has [loaded < 1] together with a non-empty
    remaining keyword candidate array, a non-empty remaining text
    candidate array or [groupsMissing] set, [overrides] becomes the
    current loaded, remaining candidates and significant items, and a
    start in continue mode then sends exactly these overrides in the
    request; otherwise, if [loaded > 0], [overrides] becomes undefined. *)
Theorem C3_overrides_when_stream_stops
        (prev r : Render) (arrayDepsChanged : bool) (now : number)
        (w : World) :
  isRunning prev = true ->
  isRunning r = false ->
  let w' := commitEffects (Some prev) arrayDepsChanged now r w in
  (resumable (data r) ->
     st_overrides (next w') = Some (partialResults (data r)) /\
     forall resetGroupButton p,
       let r' := rerender r w' in
       let w'' := startHandler true resetGroupButton r' w' in
       startParams (rerender r' w'') = Some p ->
       b_overrides (p_body p) = Some (partialResults (data r))) /\
  (~ resumable (data r) ->
     PrimFloat.ltb 0%float (d_loaded (data r)) = true ->
     st_overrides (next w') = None).
Proof.
  intros Hprev Hcur w'.
  assert (Hw' : st_overrides (next w') =
                st_overrides (next (isRunningEffect now r
                  ((if onMountOr (Some prev) arrayDepsChanged
                    then skippedFieldsEffect r else skip) w)))).
  { subst w'. unfold commitEffects, andThen.
    rewrite (stream_stopped_changed _ _ Hprev Hcur).
    destruct (changed shouldStart (Some prev) r); unfold skip.
    - apply shouldStartEffect_overrides.
    - reflexivity. }
  split.
  - intros Hres.
    assert (Hset : st_overrides (next w') = Some (partialResults (data r))).
    { rewrite Hw'. by apply isRunningEffect_stopped_resumable. }
    split; [exact Hset|].
    intros g p r' w'' Hp.
    apply startParams_overrides in Hp. rewrite Hp.
    unfold overrides, rerender. cbn [state].
    subst w''. rewrite startHandler_continue_overrides. exact Hset.
  - intros Hres Hpos. rewrite Hw'.
    by apply isRunningEffect_stopped_loaded.
Qed.

Lemma includes_spec (a : list string) (d : string) :
  includes a d = true <-> d ∈ a.
Proof.
  unfold includes. rewrite existsb_exists. split.
  - intros (x & Hin & Heq). apply String.eqb_eq in Heq. subst x.
    by apply list_elem_of_In.
  - intros Hin. exists d. split; [by apply list_elem_of_In|].
    apply String.eqb_refl.
Qed.

Lemma filter_not_includes (S l : list string) :
  List.filter (fun d => negb (includes S d)) l = filter (.∉ S) l.
Proof.
  induction l as [|d l IH]; [reflexivity|].
  cbn [List.filter]. rewrite filter_cons. rewrite IH.
  destruct (includes S d) eqn:E; cbn [negb].
  - apply includes_spec in E. by rewrite decide_False by tauto.
  - rewrite decide_True; [reflexivity|].
    intros Hin. apply includes_spec in Hin. congruence.
Qed.

(** C5. Applying a field-filter change with skipped fields [S]
    dispatches [resetResults], records [S] as the skipped fields, sets
    [overrides] to [loaded = 0], [regroupOnly = false] and the current
    keyword and text candidates without the members of [S], and calls
    the start handler in continue mode: it dispatches the current
    analysis type and window parameters and raises [shouldStart]
    without touching the grouping toggle, so that the start effect of
    the next render sends these overrides. *)
Theorem C5_onFieldsFilterChange
        (S : list string) (r : Render) (w : World) :
  let w' := onFieldsFilterChange S r w in
  let fresh :=
    {| o_loaded := Some 0%float;
       o_remainingKeywordFieldCandidates :=
         Some (filter (.∉ S) (keywordFieldCandidates r));
       o_remainingTextFieldCandidates :=
         Some (filter (.∉ S) (textFieldCandidates r));
       o_significantItems := None;
       o_regroupOnly := Some false |} in
  dispatched w' =
    dispatched w ++
      [resetResults;
       setCurrentAnalysisType (analysisType r);
       setCurrentAnalysisWindowParameters (chartWindowParameters r)] /\
  st_skippedFields (next w') = Some S /\
  st_overrides (next w') = Some fresh /\
  st_shouldStart (next w') = true /\
  st_groupResults (next w') = st_groupResults (next w) /\
  st_toggleIdSelected (next w') = st_toggleIdSelected (next w) /\
  st_skippedColumns (next w') = st_skippedColumns (next w) /\
  refs w' = refs w /\
  forall p, startParams (rerender r w') = Some p ->
    b_overrides (p_body p) = Some fresh /\
    (shouldStart r = false ->
     forall arrayDepsChanged now,
       dispatched (commitEffects (Some r) arrayDepsChanged now
                                 (rerender r w') w') =
         dispatched w' ++ [startStream p]).
Proof.
  intros w' fresh.
  assert (Hnext : st_overrides (next w') = Some fresh /\
                  st_shouldStart (next w') = true).
  { subst w' fresh. unfold onFieldsFilterChange, startHandler.
    unfold_commands. cbn [negb next st_overrides st_shouldStart].
    by rewrite !filter_not_includes. }
  destruct Hnext as [Hover Hstart].
  split; [|split; [|split; [exact Hover|split; [exact Hstart|]]]].
  - subst w'. unfold onFieldsFilterChange, startHandler. unfold_commands.
    cbn [negb dispatched]. by rewrite <- !app_assoc.
  - reflexivity.
  - repeat (split; [reflexivity|]).
    intros p Hp. split.
    + apply startParams_overrides in Hp. rewrite Hp. exact Hover.
    + intros Hidle c now. rewrite commitEffects_dispatched.
      rewrite Hidle, Hp. unfold shouldStart at 1, rerender. cbn [state].
      by rewrite Hstart.
Qed.

(** C6. The cancel handler aborts the controller held by the
    [abortCtrl] ref, which is the very controller every [startParams]
    hands to the streaming client, and dispatches [cancelStream]; it
    does nothing else: state cells, the other ref and the reported
    events are as before. *)
Theorem C6_cancelHandler (r : Render) (w : World) :
  let w' := cancelHandler r w in
  aborted (abortCtrl (refs w')) = true /\
  dispatched w' = dispatched w ++ [cancelStream] /\
  next w' = next w /\
  analysisStartTime (refs w') = analysisStartTime (refs w) /\
  reported w' = reported w /\
  forall (r0 : Render) (p : StartParams), startParams r0 = Some p ->
    p_abortCtrl p (refs w') = abortCtrl (refs w') /\
    aborted (p_abortCtrl p (refs w')) = true.
Proof.
  cbv zeta. unfold cancelHandler. unfold_commands. cbn.
  repeat (split; [reflexivity|]).
  intros r0 p Hp. unfold startParams in Hp.
  destruct (chartWindowParameters r0), (truthy (earliest r0)),
    (truthy (latest r0)); try discriminate.
  injection Hp as <-. split; reflexivity.
Qed.

Lemma startParams_missing (r : Render) :
  chartWindowParameters r = None \/ earliest r = None \/ latest r = None ->
  startParams r = None.
Proof.
  unfold startParams. intros [H | [H | H]]; rewrite H.
  - reflexivity.
  - cbn [truthy]. by destruct (chartWindowParameters r).
  - cbn [truthy].
    by destruct (chartWindowParameters r), (truthy (earliest r)).
Qed.

Lemma commitEffects_no_startParams prev c now (r : Render) (w : World) :
  startParams r = None ->
  dispatched (commitEffects prev c now r w) = dispatched w.
Proof.
  intros Hnone. destruct prev as [p|].
  - rewrite commitEffects_dispatched, Hnone.
    destruct (_ && _); apply app_nil_r.
  - unfold commitEffects, andThen. cbn [changed onMountOr].
    unfold mountEffect, shouldStartEffect. rewrite Hnone.
    destruct (shouldStart r); unfold skip;
      by rewrite isRunningEffect_dispatched, skippedFieldsEffect_dispatched.
Qed.

(** C9. The request body of [startParams] carries the chart window
    parameters as they are when the analysis type is spike and as
    returned by [getSwappedWindowParameters] when it is dip;
    [startParams] is undefined whenever [chartWindowParameters],
    [earliest] or [latest] is undefined, and then no commit phase,
    mount included, dispatches anything: no stream is started. *)
Theorem C9_startParams (r : Render) :
  (forall p cwp,
     startParams r = Some p -> chartWindowParameters r = Some cwp ->
     (analysisType r = SPIKE -> b_windowParameters (p_body p) = cwp) /\
     (analysisType r = DIP ->
        b_windowParameters (p_body p) = getSwappedWindowParameters cwp)) /\
  (chartWindowParameters r = None \/ earliest r = None \/ latest r = None ->
     startParams r = None /\
     forall prev c now w,
       dispatched (commitEffects prev c now r w) = dispatched w).
Proof.
  split.
  - intros p cwp Hp Hcwp. unfold startParams in Hp. rewrite Hcwp in Hp.
    destruct (truthy (earliest r)), (truthy (latest r)); try discriminate.
    injection Hp as <-. cbn [p_body b_windowParameters].
    split; intros ->; reflexivity.
  - intros Hmiss. pose proof (startParams_missing r Hmiss) as Hnone.
    split; [exact Hnone|]. intros prev c now w.
    by apply commitEffects_no_startParams.
Qed.

Lemma skippedFieldsEffect_initialised (r : Render) (w : World) sel :
  skippedFields r = Some sel -> skippedFieldsEffect r w = w.
Proof. unfold skippedFieldsEffect. by intros ->. Qed.

Lemma isRunningEffect_skippedFields now (r : Render) (w : World) :
  st_skippedFields (next (isRunningEffect now r w)) =
    st_skippedFields (next w).
Proof.
  unfold isRunningEffect. destruct (negb (isRunning r)); [|reflexivity].
  cbv zeta. destruct (_ && _); [reflexivity|].
  destruct (PrimFloat.ltb _ _); [|reflexivity].
  unfold_commands. cbn. by destruct (analysisStartTime (refs w)).
Qed.

Lemma shouldStartEffect_skippedFields (r : Render) (w : World) :
  st_skippedFields (next (shouldStartEffect r w)) =
    st_skippedFields (next w).
Proof.
  unfold shouldStartEffect. destruct (shouldStart r); [|reflexivity].
  by destruct (startParams r).
Qed.

Lemma mountEffect_next (r : Render) (w : World) : next (mountEffect r w) = next w.
Proof. unfold mountEffect. by destruct (startParams r). Qed.

Lemma commitEffects_initialised prev c now (r : Render) (w : World) sel :
  skippedFields r = Some sel ->
  st_skippedFields (next (commitEffects prev c now r w)) =
    st_skippedFields (next w).
Proof.
  intros Hsel. unfold commitEffects, andThen.
  destruct prev as [p|]; unfold skip.
  - destruct (changed shouldStart (Some p) r);
      rewrite ?shouldStartEffect_skippedFields;
      destruct (changed isRunning (Some p) r);
      rewrite ?isRunningEffect_skippedFields;
      destruct (onMountOr (Some p) c);
      by rewrite ?(skippedFieldsEffect_initialised _ _ _ Hsel).
  - rewrite mountEffect_next. cbn [changed onMountOr].
    rewrite shouldStartEffect_skippedFields, isRunningEffect_skippedFields.
    by rewrite (skippedFieldsEffect_initialised _ _ _ Hsel).
Qed.

Lemma storeUpdates_keep_selection us : forall (rw : Render * World) sel,
  st_skippedFields (next rw.2) = Some sel ->
  st_skippedFields (next (storeUpdates us rw).2) = Some sel.
Proof.
  unfold storeUpdates.
  induction us as [|u us IH]; intros [r w] sel Hsel; [exact Hsel|].
  cbn [foldl]. apply IH. unfold storeUpdate. cbn [fst snd] in *.
  rewrite (commitEffects_initialised _ _ _ _ _ sel); [exact Hsel|].
  exact Hsel.
Qed.

(** C10. [skippedFields] starts as [null]; the initialisation effect
    assigns it only when the rendered value is still [null] and
    [fieldFilterSkippedItems] is non-empty, and then to exactly these
    items; when the rendered value is not [null] the effect does
    nothing. Hence after the user applied a selection [S], no later
    sequence of store updates, each followed by its commit phase,
    replaces it. *)
Theorem C10_skippedFields_initialised_once :
  (forall stored,
     st_skippedFields (@initialState SignificantItem stored) = None) /\
  (forall (r : Render) (w : World),
     st_skippedFields (next (skippedFieldsEffect r w)) <>
       st_skippedFields (next w) ->
     skippedFields r = None /\ fieldFilterSkippedItems r <> [] /\
     st_skippedFields (next (skippedFieldsEffect r w)) =
       Some (fieldFilterSkippedItems r)) /\
  (forall (r : Render) (w : World),
     skippedFields r = None -> fieldFilterSkippedItems r <> [] ->
     st_skippedFields (next (skippedFieldsEffect r w)) =
       Some (fieldFilterSkippedItems r)) /\
  (forall (r : Render) (w : World) sel,
     skippedFields r = Some sel -> skippedFieldsEffect r w = w) /\
  (forall S (r : Render) (w : World) us,
     let w' := onFieldsFilterChange S r w in
     st_skippedFields (next (storeUpdates us (rerender r w', w')).2) =
       Some S).
Proof.
  split; [reflexivity|]. split; [|split; [|split]].
  - intros r w Hne. unfold skippedFieldsEffect in *.
    destruct (skippedFields r) as [sel|]; [by destruct Hne|].
    destruct (fieldFilterSkippedItems r) as [|x l] eqn:E.
    + by destruct Hne.
    + done.
  - intros r w Hnull Hitems. unfold skippedFieldsEffect. rewrite Hnull.
    destruct (fieldFilterSkippedItems r) as [|x l]; [done|reflexivity].
  - intros r w sel. apply skippedFieldsEffect_initialised.
  - intros S r w us w'. apply storeUpdates_keep_selection.
    reflexivity.
Qed.

(** C4. The errors shown are the stream errors followed by the errors
    of the result data. The call-out is rendered exactly when this
    list is non-empty; it counts the errors, shows a single error as a
    paragraph and otherwise a list whose i-th entry, keyed [i], is the
    i-th error; and it offers the button that continues the analysis
    exactly when [overrides] is defined. *)
Theorem C4_error_callout (r : Render) :
  errors r = streamErrors r ++ d_errors (data r) /\
  (is_Some (renderErrorCallOut r) <-> errors r <> []) /\
  (forall c, renderErrorCallOut r = Some c ->
     errorCount c = length (errors r) /\
     (forall e, errors r = [e] -> errorList c = Paragraph (Some e)) /\
     (length (errors r) <> 1%nat ->
        exists items, errorList c = UnorderedList items /\
          length items = length (errors r) /\
          forall i, items !! i = (fun e => (i, e)) <$> errors r !! i) /\
     (is_Some (tryToContinueButton c) <-> is_Some (overrides r)) /\
     (forall h, tryToContinueButton c = Some h -> h = startHandler true true)).
Proof.
  split; [reflexivity|]. unfold renderErrorCallOut. split.
  - destruct (errors r) as [|e es]; cbn [length Nat.ltb Nat.leb].
    + split; [intros [c Hc]; discriminate | congruence].
    + split; [discriminate | eauto].
  - intros c Hc.
    destruct (Nat.ltb 0 (length (errors r))); [|discriminate].
    injection Hc as <-.
    cbn [errorCount errorList tryToContinueButton].
    split; [reflexivity|]. split; [|split; [|split]].
    + intros e ->. reflexivity.
    + intros Hlen. apply Nat.eqb_neq in Hlen. rewrite Hlen.
      eexists. split; [reflexivity|]. split.
      * apply length_imap.
      * intros i. apply list_lookup_imap.
    + destruct (overrides r); split; intros [x Hx]; try discriminate; eauto.
    + intros h. destruct (overrides r); [|discriminate].
      by intros [= <-].
Qed.

(* =================================================================== *)
(** *** The mounted component over its whole life *)
(* =================================================================== *)

Local Abbreviation Event := (@Event SignificantItem SearchQuery Http).
Local Abbreviation step :=
  (step JSON_stringify getSwappedWindowParameters AIOPS_ANALYSIS_RUN_ORIGIN).
Local Abbreviation run :=
  (run JSON_stringify getSwappedWindowParameters AIOPS_ANALYSIS_RUN_ORIGIN).
Local Abbreviation mount :=
  (mount JSON_stringify getSwappedWindowParameters AIOPS_ANALYSIS_RUN_ORIGIN).

Ltac run_handler :=
  cbv beta iota zeta delta
    [handle onGroupResultsToggle onFieldsFilterChange onVisibleColumnsChange
     cancelHandler onRefresh onTryToContinue startHandler
     andThen skip setOverrides setShouldStart setGroupResults
     setToggleIdSelected setSkippedFields setSkippedColumns setState
     dispatch abort setAnalysisStartTime reportPerformanceMetricEvent
     negb next refs dispatched reported analysisStartTime abortCtrl
     st_groupResults st_overrides st_shouldStart st_toggleIdSelected
     st_skippedColumns st_skippedFields].

Lemma handle_dispatched a (r : Render) (w : World) :
  dispatched (handle a r w) = dispatched w ++ handlerActions a r.
Proof.
  destruct a; cbn [handlerActions]; run_handler;
    rewrite <- ?app_assoc, ?app_nil_r; reflexivity.
Qed.

Lemma handle_metric a (r : Render) (w : World) :
  analysisStartTime (refs (handle a r w)) = analysisStartTime (refs w) /\
  reported (handle a r w) = reported w.
Proof.
  destruct a; run_handler; split; reflexivity.
Qed.

(** An invariant of a world is kept by a run when every handler and every
    commit phase keeps it. *)
Lemma run_invariant (P : World -> Prop) :
  (forall a (r : Render) w, P w -> P (handle a r w)) ->
  (forall prev c now (r : Render) w, P w -> P (commitEffects prev c now r w)) ->
  forall (es : list Event) (rw : Render * World), P rw.2 -> P (run es rw).2.
Proof.
  intros Hhandle Hcommit es. unfold run.
  induction es as [|e es IH]; intros [r w] HP; [exact HP|].
  cbn [foldl]. apply IH. destruct e as [a c now | env c now];
    unfold step; cbn [fst snd].
  - apply Hcommit, Hhandle, HP.
  - apply Hcommit, HP.
Qed.

Lemma mount_invariant (P : World -> Prop) (env : Render) stored started now :
  (forall prev c t (r : Render) w, P w -> P (commitEffects prev c t r w)) ->
  P (@initialWorld SignificantItem Http stored started) ->
  P (mount env stored started now).2.
Proof. intros Hcommit Hinit. unfold mount. cbn [snd]. by apply Hcommit. Qed.

Lemma isRunningEffect_metric now (r : Render) (w : World) :
  (analysisStartTime (refs (isRunningEffect now r w))
     = analysisStartTime (refs w) /\
   reported (isRunningEffect now r w) = reported w) \/
  (exists started,
     analysisStartTime (refs w) = Some started /\
     analysisStartTime (refs (isRunningEffect now r w)) = None /\
     reported (isRunningEffect now r w) =
       reported w ++ [mkPerformanceMetricEvent "aiopsLogRateAnalysisCompleted"
                                               (PrimFloat.sub now started)]).
Proof.
  unfold isRunningEffect. destruct (negb (isRunning r)); [|by left].
  cbv zeta. destruct (_ && _); [by left|].
  destruct (PrimFloat.ltb _ _); [|by left].
  unfold_commands. cbn.
  destruct (analysisStartTime (refs w)) as [started|] eqn:Hst.
  - right. by exists started.
  - left. cbn. rewrite ?Hst. by split.
Qed.

(** The commit phase touches the start-time ref and the reported events
    only through [isRunningEffect]. *)
Lemma commitEffects_metric prev c now (r : Render) (w : World) :
  (analysisStartTime (refs (commitEffects prev c now r w))
     = analysisStartTime (refs w) /\
   reported (commitEffects prev c now r w) = reported w) \/
  (exists started,
     analysisStartTime (refs w) = Some started /\
     analysisStartTime (refs (commitEffects prev c now r w)) = None /\
     reported (commitEffects prev c now r w) =
       reported w ++ [mkPerformanceMetricEvent "aiopsLogRateAnalysisCompleted"
                                               (PrimFloat.sub now started)]).
Proof.
  unfold commitEffects, andThen.
  set (w1 := (if onMountOr prev c then skippedFieldsEffect r else skip) w).
  set (w2 := (if changed isRunning prev r then isRunningEffect now r
              else skip) w1).
  set (w3 := (if changed shouldStart prev r then shouldStartEffect r
              else skip) w2).
  assert (H1 : refs w1 = refs w /\ reported w1 = reported w).
  { subst w1. destruct (onMountOr prev c); [|by split].
    unfold skippedFieldsEffect. destruct (skippedFields r); [by split|].
    by destruct (Nat.ltb _ _). }
  assert (H3 : refs w3 = refs w2 /\ reported w3 = reported w2).
  { subst w3. destruct (changed shouldStart prev r); [|by split].
    unfold shouldStartEffect. destruct (shouldStart r); [|by split].
    by destruct (startParams r). }
  assert (H4 : refs ((if prev is None then mountEffect r else skip) w3)
                 = refs w3 /\
               reported ((if prev is None then mountEffect r else skip) w3)
                 = reported w3).
  { destruct prev; [by split|].
    unfold mountEffect. by destruct (startParams r). }
  destruct H1 as [R1 P1], H3 as [R3 P3], H4 as [R4 P4].
  rewrite R4, P4, R3, P3. rewrite <- R1, <- P1.
  subst w2. destruct (changed isRunning prev r); [|by left].
  apply isRunningEffect_metric.
Qed.

(** X2. Whatever the user does and however props and store change after
    the mount, the completion metric is reported at most once, under
    the name [aiopsLogRateAnalysisCompleted]; and once it has been
    reported the start-time ref is undefined. *)
Theorem metric_reported_at_most_once
        (es : list Event) (env : Render) stored started now :
  let w := (run es (mount env stored started now)).2 in
  (length (reported w) <= 1)%nat /\
  Forall (fun e => eventName e = "aiopsLogRateAnalysisCompleted") (reported w) /\
  (reported w <> [] -> analysisStartTime (refs w) = None).
Proof.
  cbv zeta.
  set (P := fun w : World =>
              match analysisStartTime (refs w) with
              | Some _ => reported w = []
              | None => (length (reported w) <= 1)%nat /\
                        Forall (fun e => eventName e
                                  = "aiopsLogRateAnalysisCompleted") (reported w)
              end).
  assert (Hcommit : forall prev c t (r : Render) w,
             P w -> P (commitEffects prev c t r w)).
  { intros prev c t r w HP. unfold P in *.
    destruct (commitEffects_metric prev c t r w)
      as [[-> ->] | (t0 & Hsome & -> & ->)]; [exact HP|].
    rewrite Hsome in HP. rewrite HP. cbn. split; [lia|].
    by repeat constructor. }
  assert (Hhandle : forall a (r : Render) w, P w -> P (handle a r w)).
  { intros a r w HP. unfold P in *.
    by destruct (handle_metric a r w) as [-> ->]. }
  assert (HP : P (run es (mount env stored started now)).2).
  { apply run_invariant; [exact Hhandle | exact Hcommit |].
    apply mount_invariant; [exact Hcommit | reflexivity]. }
  unfold P in HP.
  destruct (analysisStartTime (refs (run es (mount env stored started now)).2)).
  - rewrite HP. cbn. split; [lia|]. split; [constructor | congruence].
  - destruct HP as [Hlen Hall]. by repeat split.
Qed.

Lemma handle_toggle_sync a (r : Render) (w : World) :
  st_groupResults (next w)
    = String.eqb (st_toggleIdSelected (next w)) resultsGroupedOnId ->
  st_groupResults (next (handle a r w))
    = String.eqb (st_toggleIdSelected (next (handle a r w))) resultsGroupedOnId.
Proof.
  intros Hsync.
  destruct a; run_handler; try exact Hsync; reflexivity.
Qed.

Lemma commitEffects_toggle prev c now (r : Render) (w : World) :
  st_groupResults (next (commitEffects prev c now r w))
    = st_groupResults (next w) /\
  st_toggleIdSelected (next (commitEffects prev c now r w))
    = st_toggleIdSelected (next w).
Proof.
  unfold commitEffects, andThen.
  set (w1 := (if onMountOr prev c then skippedFieldsEffect r else skip) w).
  set (w2 := (if changed isRunning prev r then isRunningEffect now r
              else skip) w1).
  set (w3 := (if changed shouldStart prev r then shouldStartEffect r
              else skip) w2).
  set (w4 := (if prev is None then mountEffect r else skip) w3).
  assert (H1 : st_groupResults (next w1) = st_groupResults (next w) /\
               st_toggleIdSelected (next w1) = st_toggleIdSelected (next w)).
  { subst w1. destruct (onMountOr prev c); [|by split].
    unfold skippedFieldsEffect. destruct (skippedFields r); [by split|].
    by destruct (Nat.ltb _ _). }
  assert (H2 : st_groupResults (next w2) = st_groupResults (next w1) /\
               st_toggleIdSelected (next w2) = st_toggleIdSelected (next w1)).
  { subst w2. destruct (changed isRunning prev r); [|by split].
    unfold isRunningEffect. destruct (negb (isRunning r)); [|by split].
    cbv zeta. destruct (_ && _); [by split|].
    destruct (PrimFloat.ltb _ _); [|by split].
    unfold_commands. cbn [next]. by destruct (analysisStartTime _). }
  assert (H3 : st_groupResults (next w3) = st_groupResults (next w2) /\
               st_toggleIdSelected (next w3) = st_toggleIdSelected (next w2)).
  { subst w3. destruct (changed shouldStart prev r); [|by split].
    unfold shouldStartEffect. destruct (shouldStart r); [|by split].
    by destruct (startParams r). }
  assert (H4 : st_groupResults (next w4) = st_groupResults (next w3) /\
               st_toggleIdSelected (next w4) = st_toggleIdSelected (next w3)).
  { subst w4. destruct prev; [by split|]. by rewrite mountEffect_next. }
  destruct H1 as [G1 T1], H2 as [G2 T2], H3 as [G3 T3], H4 as [G4 T4].
  split; [by rewrite G4, G3, G2, G1 | by rewrite T4, T3, T2, T1].
Qed.

(** X3. The grouping flag and the selected toggle button never drift
    apart: after any events, [groupResults] holds exactly when the
    selected button is the "on" button. *)
Theorem group_toggle_in_sync
        (es : list Event) (env : Render) stored started now :
  let w := (run es (mount env stored started now)).2 in
  st_groupResults (next w)
    = String.eqb (st_toggleIdSelected (next w)) resultsGroupedOnId.
Proof.
  cbv zeta.
  apply (run_invariant
           (fun w => st_groupResults (next w)
                     = String.eqb (st_toggleIdSelected (next w))
                                  resultsGroupedOnId)).
  - intros a r w. apply handle_toggle_sync.
  - intros prev c t r w Hsync.
    by destruct (commitEffects_toggle prev c t r w) as [-> ->].
  - apply (mount_invariant
           (fun w => st_groupResults (next w)
                     = String.eqb (st_toggleIdSelected (next w))
                                  resultsGroupedOnId)).
    + intros prev c t r w Hsync.
      by destruct (commitEffects_toggle prev c t r w) as [-> ->].
    + reflexivity.
Qed.

Lemma handle_shouldStart a (r : Render) (w : World) :
  st_shouldStart (next (handle a r w))
    = startsAnalysis a || st_shouldStart (next w).
Proof.
  destruct a; cbn [startsAnalysis orb]; run_handler; reflexivity.
Qed.

Lemma handlerActions_no_start a (r : Render) :
  List.filter isStartStream (handlerActions a r) = [] /\
  List.filter isFetchFieldCandidates (handlerActions a r) = [].
Proof. destruct a; split; reflexivity. Qed.

Lemma skippedFieldsEffect_shouldStart (r : Render) (w : World) :
  st_shouldStart (next (skippedFieldsEffect r w)) = st_shouldStart (next w).
Proof.
  unfold skippedFieldsEffect. destruct (skippedFields r); [reflexivity|].
  by destruct (Nat.ltb _ _).
Qed.

Lemma isRunningEffect_shouldStart now (r : Render) (w : World) :
  st_shouldStart (next (isRunningEffect now r w)) = st_shouldStart (next w).
Proof.
  unfold isRunningEffect. destruct (negb (isRunning r)); [|reflexivity].
  cbv zeta. destruct (_ && _); [reflexivity|].
  destruct (PrimFloat.ltb _ _); [|reflexivity].
  unfold_commands. cbn. by destruct (analysisStartTime (refs w)).
Qed.

(** The commit phase of a re-render lowers [shouldStart] when it starts
    the stream and leaves it alone otherwise. *)
Lemma commitEffects_shouldStart (prev r : Render) c now (w : World) :
  st_shouldStart (next (commitEffects (Some prev) c now r w)) =
    if negb (shouldStart prev) && shouldStart r && bool_decide (is_Some (startParams r))
    then false
    else st_shouldStart (next w).
Proof.
  assert (Hpre : forall w0 : World,
            st_shouldStart (next ((if changed isRunning (Some prev) r
                                   then isRunningEffect now r else skip)
                                    ((if onMountOr (Some prev) c
                                      then skippedFieldsEffect r else skip) w0)))
            = st_shouldStart (next w0)).
  { intros w0. destruct (changed isRunning (Some prev) r);
      destruct (onMountOr (Some prev) c); unfold skip;
      by rewrite ?isRunningEffect_shouldStart, ?skippedFieldsEffect_shouldStart. }
  assert (Hch : changed shouldStart (Some prev) r
                = xorb (shouldStart prev) (shouldStart r)).
  { unfold changed. by destruct (shouldStart prev), (shouldStart r). }
  assert (Hskip : forall w0 : World, skip w0 = w0) by reflexivity.
  unfold commitEffects, andThen. rewrite Hch. unfold shouldStartEffect.
  destruct (shouldStart prev), (shouldStart r); cbn [xorb negb andb];
    rewrite !Hskip; try by rewrite Hpre.
  destruct (startParams r) as [p|].
  - rewrite bool_decide_eq_true_2 by eauto. reflexivity.
  - rewrite bool_decide_eq_false_2 by (intros [? ?]; discriminate).
    by rewrite Hskip, Hpre.
Qed.

Lemma run_invariant_pair (Q : Render * World -> Prop) :
  (forall e rw, Q rw -> Q (step e rw)) ->
  forall (es : list Event) rw, Q rw -> Q (run es rw).
Proof.
  intros Hstep es. unfold run.
  induction es as [|e es IH]; intros rw HQ; [exact HQ|].
  cbn [foldl]. apply IH, Hstep, HQ.
Qed.

Lemma step_dispatched (e : Event) (rw : Render * World) :
  exists actions started,
    dispatched (step e rw).2 = dispatched rw.2 ++ actions ++ started /\
    List.filter isStartStream actions = [] /\
    List.filter isFetchFieldCandidates actions = [] /\
    List.filter isFetchFieldCandidates started = [] /\
    (shouldStart rw.1 = true -> started = []).
Proof.
  destruct rw as [r w].
  destruct e as [a c now | env c now]; unfold step; cbn [fst snd];
    rewrite commitEffects_dispatched.
  - rewrite handle_dispatched, <- app_assoc.
    destruct (handlerActions_no_start a r) as [Hs Hf].
    eexists _, _. split; [reflexivity|]. split; [exact Hs|]. split; [exact Hf|].
    split.
    + destruct (_ && _); [|reflexivity]. by destruct (startParams _).
    + by intros ->.
  - exists [].
    eexists. split; [reflexivity|]. do 2 (split; [reflexivity|]). split.
    + destruct (_ && _); [|reflexivity]. by destruct (startParams _).
    + by intros ->.
Qed.

(** X4. On mount, when [startParams] is defined, the component dispatches
    exactly: fetch the field candidates, record the analysis type and
    window, start the stream; the request of this first start carries
    no overrides. When [startParams] is undefined it dispatches nothing. *)
Theorem mount_dispatches (env : Render) stored started now :
  let rw := mount env stored started now in
  match startParams rw.1 with
  | Some p =>
      dispatched rw.2 =
        [fetchFieldCandidates p;
         setCurrentAnalysisType (analysisType env);
         setCurrentAnalysisWindowParameters (chartWindowParameters env);
         startStream p] /\
      b_overrides (p_body p) = None
  | None => dispatched rw.2 = []
  end /\
  st_shouldStart (next rw.2) = false.
Proof.
  cbv zeta. unfold mount. cbn [fst snd].
  set (r := mkRender _ _ _ _ _ _).
  unfold commitEffects, andThen. cbn [changed onMountOr].
  assert (Hidle : shouldStartEffect r = skip) by reflexivity.
  rewrite Hidle. unfold skip at 1.
  set (w1 := isRunningEffect now r _).
  assert (Hd : dispatched w1 = []).
  { subst w1. by rewrite isRunningEffect_dispatched,
      skippedFieldsEffect_dispatched. }
  assert (Hs : st_shouldStart (next w1) = false).
  { subst w1. by rewrite isRunningEffect_shouldStart,
      skippedFieldsEffect_shouldStart. }
  unfold mountEffect.
  destruct (startParams r) as [p|] eqn:Hp.
  - unfold_commands. cbn [dispatched next]. rewrite Hd.
    split; [|exact Hs]. split; [reflexivity|].
    apply startParams_overrides in Hp. by rewrite Hp.
  - by split.
Qed.

(** X5. After the mount the field candidates are never fetched again:
    no user action, refresh included, and no re-render dispatches
    [fetchFieldCandidates]. *)
Theorem field_candidates_fetched_only_on_mount
        (es : list Event) (rw : Render * World) :
  List.filter isFetchFieldCandidates (dispatched (run es rw).2) =
  List.filter isFetchFieldCandidates (dispatched rw.2).
Proof.
  revert rw. unfold run.
  induction es as [|e es IH]; intros rw; [reflexivity|].
  cbn [foldl]. rewrite IH.
  destruct (step_dispatched e rw) as (acts & st & -> & _ & Hf & Hf' & _).
  by rewrite !List.filter_app, Hf, Hf', !app_nil_r.
Qed.

(** X6. A user action that starts the analysis (refresh, continue,
    apply a field filter), taken while no start is pending and
    [startParams] is defined, leads to exactly one [startStream]: the
    commit phase of the next render dispatches it, with the overrides the
    handler has just set, and lowers [shouldStart]; the render after that
    dispatches nothing more. *)
Theorem start_is_issued_once
        (a : UserAction) (r : Render) (w : World) c1 n1 c2 n2 p :
  startsAnalysis a = true ->
  shouldStart r = false ->
  startParams (rerender r (handle a r w)) = Some p ->
  let rw1 := step (UserEvent a c1 n1) (r, w) in
  let rw2 := step (RenderEvent rw1.1 c2 n2) rw1 in
  dispatched rw1.2 = dispatched w ++ handlerActions a r ++ [startStream p] /\
  b_overrides (p_body p) = st_overrides (next (handle a r w)) /\
  st_shouldStart (next rw1.2) = false /\
  dispatched rw2.2 = dispatched rw1.2 /\
  st_shouldStart (next rw2.2) = false.
Proof.
  intros Hstarts Hidle Hp. cbv zeta. unfold step. cbn [fst snd].
  set (w1 := handle a r w). set (r1 := rerender r w1).
  assert (Hp1 : startParams r1 = Some p) by exact Hp.
  assert (Hr1 : shouldStart r1 = true).
  { subst r1 w1. unfold shouldStart, rerender. cbn [state].
    by rewrite handle_shouldStart, Hstarts. }
  set (w2 := commitEffects (Some r) c1 n1 r1 w1).
  assert (Hd2 : dispatched w2 = dispatched w ++ handlerActions a r ++ [startStream p]).
  { subst w2. rewrite commitEffects_dispatched, Hidle, Hr1.
    rewrite Hp1. subst w1.
    by rewrite handle_dispatched, <- app_assoc. }
  assert (Hs2 : st_shouldStart (next w2) = false).
  { subst w2. rewrite commitEffects_shouldStart, Hidle, Hr1.
    rewrite Hp1.
    by rewrite bool_decide_eq_true_2 by eauto. }
  split; [exact Hd2|]. split.
  { apply startParams_overrides in Hp1. exact Hp1. }
  split; [exact Hs2|].
  assert (Hr2 : shouldStart (rerender r1 w2) = false).
  { unfold shouldStart, rerender. cbn [state]. exact Hs2. }
  split.
  - rewrite commitEffects_dispatched, Hr1. cbn [negb andb]. apply app_nil_r.
  - rewrite commitEffects_shouldStart, Hr1. cbn [negb andb]. exact Hs2.
Qed.

(** X7. A start requested while [startParams] is undefined is dropped
    for good: [shouldStart] stays raised, and from then on no user action
    and no re-render of this component, whatever the props and the
    store become, dispatches [startStream]. *)
Theorem dropped_start_is_never_retried
        (a : UserAction) (r : Render) (w : World) c n (es : list Event) :
  startsAnalysis a = true ->
  shouldStart r = false ->
  startParams (rerender r (handle a r w)) = None ->
  let rw := run es (step (UserEvent a c n) (r, w)) in
  List.filter isStartStream (dispatched rw.2)
    = List.filter isStartStream (dispatched w) /\
  st_shouldStart (next rw.2) = true.
Proof.
  intros Hstarts Hidle Hnone. cbv zeta.
  set (Q := fun rw : Render * World =>
              shouldStart rw.1 = true /\
              st_shouldStart (next rw.2) = true /\
              List.filter isStartStream (dispatched rw.2)
                = List.filter isStartStream (dispatched w)).
  assert (HQ : Q (run es (step (UserEvent a c n) (r, w)))).
  { apply run_invariant_pair.
    - intros e [r0 w0] (Hr0 & Hw0 & Hd0).
      destruct (step_dispatched e (r0, w0))
        as (acts & st & Hd & Hacts & _ & _ & Hst).
      rewrite (Hst Hr0), app_nil_r in Hd.
      unfold Q. rewrite Hd, List.filter_app, Hacts, app_nil_r.
      cbn [fst snd] in *.
      destruct e as [a0 c0 now0 | env c0 now0]; unfold step; cbn [fst snd].
      + assert (Hw1 : st_shouldStart (next (handle a0 r0 w0)) = true).
        { rewrite handle_shouldStart, Hw0. apply orb_true_r. }
        split; [exact Hw1|]. split; [|exact Hd0].
        rewrite commitEffects_shouldStart, Hr0. cbn [negb andb]. exact Hw1.
      + split; [exact Hw0|]. split; [|exact Hd0].
        rewrite commitEffects_shouldStart, Hr0. cbn [negb andb]. exact Hw0.
    - unfold Q, step. cbn [fst snd].
      assert (Hw1 : st_shouldStart (next (handle a r w)) = true).
      { by rewrite handle_shouldStart, Hstarts. }
      split; [exact Hw1|]. split.
      + rewrite commitEffects_shouldStart, Hnone.
        rewrite bool_decide_eq_false_2 by (intros [? ?]; discriminate).
        rewrite andb_false_r. exact Hw1.
      + rewrite commitEffects_dispatched, Hnone.
        destruct (_ && _); rewrite app_nil_r, handle_dispatched,
          List.filter_app;
          by rewrite (proj1 (handlerActions_no_start a r)), app_nil_r. }
  destruct HQ as (_ & Hs & Hd). by split.
Qed.

Lemma commitEffects_skippedFields_set prev c now (r : Render) (w : World) :
  st_skippedFields (next (commitEffects prev c now r w))
    = st_skippedFields (next w) \/
  is_Some (st_skippedFields (next (commitEffects prev c now r w))).
Proof.
  unfold commitEffects, andThen.
  set (w1 := (if onMountOr prev c then skippedFieldsEffect r else skip) w).
  assert (H1 : st_skippedFields (next w1) = st_skippedFields (next w) \/
               is_Some (st_skippedFields (next w1))).
  { subst w1. destruct (onMountOr prev c); [|by left].
    unfold skippedFieldsEffect. destruct (skippedFields r); [by left|].
    destruct (Nat.ltb _ _); [right; by eexists | by left]. }
  assert (Hrest : st_skippedFields
                    (next ((if prev is None then mountEffect r else skip)
                             ((if changed shouldStart prev r
                               then shouldStartEffect r else skip)
                                ((if changed isRunning prev r
                                  then isRunningEffect now r else skip) w1))))
                  = st_skippedFields (next w1)).
  { destruct prev; unfold skip; rewrite ?mountEffect_next;
      destruct (changed shouldStart _ r);
      rewrite ?shouldStartEffect_skippedFields;
      destruct (changed isRunning _ r);
      by rewrite ?isRunningEffect_skippedFields. }
  by rewrite Hrest.
Qed.

Lemma commitEffects_shouldStart_lowers prev c now (r : Render) (w : World) :
  st_shouldStart (next (commitEffects prev c now r w)) = true ->
  st_shouldStart (next w) = true.
Proof.
  destruct prev as [p|].
  - rewrite commitEffects_shouldStart. by destruct (_ && _).
  - unfold commitEffects, andThen. cbn [changed onMountOr]. unfold skip.
    rewrite mountEffect_next. unfold shouldStartEffect.
    destruct (shouldStart r); [destruct (startParams r)|];
      unfold_commands; cbn [next st_shouldStart]; try discriminate;
      by rewrite isRunningEffect_shouldStart, skippedFieldsEffect_shouldStart.
Qed.

(** X8. Rendering settles: once a commit phase has run over a render of
    the current state cells, the commit phase of the follow-up render
    (same props and store; the array dependencies count as changed only
    if [skippedFields] was reassigned) changes nothing at all. The state
    updates made by the effects cannot keep the component re-rendering. *)
Theorem follow_up_render_changes_nothing
        (prev : option Render) (r1 : Render) (w : World) c1 n1 c2 n2 :
  state r1 = next w ->
  let w1 := commitEffects prev c1 n1 r1 w in
  let r2 := rerender r1 w1 in
  (c2 = true -> skippedFields r2 <> skippedFields r1) ->
  commitEffects (Some r1) c2 n2 r2 w1 = w1.
Proof.
  intros Hstate w1 r2 Hdeps.
  assert (Hfields : (if onMountOr (Some r1) c2
                     then skippedFieldsEffect r2 else skip) w1 = w1).
  { cbn [onMountOr]. destruct c2; [|reflexivity].
    specialize (Hdeps eq_refl).
    destruct (commitEffects_skippedFields_set prev c1 n1 r1 w) as [Heq | [l Hl]].
    - exfalso. apply Hdeps. subst r2 w1.
      unfold skippedFields, rerender. cbn [state]. by rewrite Heq, Hstate.
    - apply (skippedFieldsEffect_initialised r2 w1 l). exact Hl. }
  assert (Hrunning : changed isRunning (Some r1) r2 = false).
  { unfold changed. by rewrite bool_decide_eq_true_2. }
  assert (Hstart : (if changed shouldStart (Some r1) r2
                    then shouldStartEffect r2 else skip) w1 = w1).
  { destruct (changed shouldStart (Some r1) r2) eqn:Hch; [|reflexivity].
    unfold shouldStartEffect.
    destruct (shouldStart r2) eqn:Hr2; [|reflexivity].
    exfalso. assert (Hr1 : shouldStart r1 = true).
    { unfold shouldStart. rewrite Hstate.
      apply (commitEffects_shouldStart_lowers prev c1 n1 r1 w). exact Hr2. }
    unfold changed in Hch. rewrite Hr1, Hr2 in Hch.
    by rewrite bool_decide_eq_true_2 in Hch. }
  unfold commitEffects, andThen. rewrite Hfields, Hrunning.
  change (skip w1) with w1. rewrite Hstart. reflexivity.
Qed.

Lemma filter_notSkipped (skipped : option (list string)) (l : list string) :
  List.filter (notSkipped skipped) l =
    match skipped with
    | Some sel => filter (.∉ sel) l
    | None => l
    end.
Proof.
  destruct skipped as [sel|]; cbn [notSkipped].
  - apply filter_not_includes.
  - induction l as [|d l IH]; [reflexivity|]. cbn [List.filter]. by rewrite IH.
Qed.

(** X9. A refresh starts from scratch: it dispatches [resetResults],
    clears the row state and records type and window; the overrides it
    sets hold no loaded fraction and no significant items, only the
    keyword and text candidates, in their order, without the skipped
    fields (all of them while [skippedFields] is still [null]); grouping
    goes back to off; the skipped fields are kept; a start is requested. *)
Theorem refresh_starts_from_scratch (r : Render) (w : World) :
  let w' := handle Refresh r w in
  let kept l := match skippedFields r with
                | Some sel => filter (.∉ sel) l
                | None => l
                end in
  dispatched w' =
    dispatched w ++
      [resetResults; clearAllRowState;
       setCurrentAnalysisType (analysisType r);
       setCurrentAnalysisWindowParameters (chartWindowParameters r)] /\
  st_overrides (next w') =
    Some {| o_loaded := None;
            o_remainingKeywordFieldCandidates :=
              Some (kept (keywordFieldCandidates r));
            o_remainingTextFieldCandidates :=
              Some (kept (textFieldCandidates r));
            o_significantItems := None;
            o_regroupOnly := None |} /\
  st_groupResults (next w') = false /\
  st_toggleIdSelected (next w') = resultsGroupedOffId /\
  st_skippedFields (next w') = st_skippedFields (next w) /\
  st_shouldStart (next w') = true /\
  refs w' = refs w.
Proof.
  cbv zeta. split; [apply handle_dispatched|].
  run_handler. rewrite !filter_notSkipped. by repeat split.
Qed.

Lemma handle_skippedFields a (r : Render) (w : World) :
  st_skippedFields (next (handle a r w)) =
    match a with
    | ApplyFieldsFilter sel => Some sel
    | _ => st_skippedFields (next w)
    end.
Proof.
  destruct a; run_handler; reflexivity.
Qed.

Lemma step_keeps_selection (e : Event) (rw : Render * World) S :
  isApplyFieldsFilter e = false ->
  st_skippedFields (next rw.2) = Some S ->
  st_skippedFields (next (step e rw).2) = Some S.
Proof.
  destruct rw as [r w]. cbn [fst snd]. intros He Hsel.
  destruct e as [a c now | env c now]; unfold step; cbn [fst snd].
  - assert (Hw1 : st_skippedFields (next (handle a r w)) = Some S).
    { rewrite handle_skippedFields. by destruct a. }
    by rewrite (commitEffects_initialised _ _ _ _ _ S).
  - by rewrite (commitEffects_initialised _ _ _ _ _ S).
Qed.

(** X10. A field selection applied by the user outlives everything but
    another selection: after any later user actions (toggle, columns,
    cancel, refresh, continue) and re-renders, [skippedFields] is still
    the applied set, and a refresh then analyses the candidates the store
    holds at that time without the fields of the set. *)
Theorem refresh_keeps_field_selection
        (S : list string) (r : Render) (w : World) c n (es : list Event) :
  Forall (fun e => isApplyFieldsFilter e = false) es ->
  let rw := run es (step (UserEvent (ApplyFieldsFilter S) c n) (r, w)) in
  let current := rerender rw.1 rw.2 in
  st_skippedFields (next rw.2) = Some S /\
  st_overrides (next (handle Refresh current rw.2)) =
    Some {| o_loaded := None;
            o_remainingKeywordFieldCandidates :=
              Some (filter (.∉ S) (keywordFieldCandidates rw.1));
            o_remainingTextFieldCandidates :=
              Some (filter (.∉ S) (textFieldCandidates rw.1));
            o_significantItems := None;
            o_regroupOnly := None |}.
Proof.
  intros Hes. cbv zeta.
  assert (Hsel : st_skippedFields
                   (next (run es (step (UserEvent (ApplyFieldsFilter S) c n)
                                       (r, w))).2) = Some S).
  { assert (H0 : st_skippedFields
                   (next (step (UserEvent (ApplyFieldsFilter S) c n) (r, w)).2)
                 = Some S).
    { unfold step. cbn [fst snd].
      by rewrite (commitEffects_initialised _ _ _ _ _ S). }
    revert H0. generalize (step (UserEvent (ApplyFieldsFilter S) c n) (r, w)).
    unfold run. induction Hes as [|e es He Hes IH]; intros rw H0; [exact H0|].
    cbn [foldl]. apply IH. by apply step_keeps_selection. }
  split; [exact Hsel|].
  set (rw := run es _) in *.
  run_handler. rewrite !filter_notSkipped.
  unfold skippedFields, rerender. cbn [state]. by rewrite Hsel.
Qed.

Lemma commit_stop_overrides (prev r : Render) c now (w : World) :
  isRunning prev = true -> isRunning r = false ->
  st_overrides (next (commitEffects (Some prev) c now r w)) =
    st_overrides (next (isRunningEffect now r
      ((if onMountOr (Some prev) c then skippedFieldsEffect r else skip) w))).
Proof.
  intros Hprev Hcur. unfold commitEffects, andThen.
  rewrite (stream_stopped_changed _ _ Hprev Hcur).
  destruct (changed shouldStart (Some prev) r); unfold skip.
  - apply shouldStartEffect_overrides.
  - reflexivity.
Qed.

(** X11. What the stop of the stream means for the error call-out of the
    next render. With resumable partial results and an error to show, the
    call-out offers "Try to continue analysis". After a run that is not
    resumable and has loaded something, the call-out, if there is one,
    offers no button. When neither is the case (nothing loaded, or a
    [NaN] fraction) the overrides, and so the button, stay as they were. *)
Theorem continue_button_after_stop (prev r : Render) c now (w : World) :
  isRunning prev = true ->
  isRunning r = false ->
  let w' := commitEffects (Some prev) c now r w in
  let r' := rerender r w' in
  (resumable (data r) -> errors r <> [] ->
     exists callout,
       renderErrorCallOut r' = Some callout /\
       tryToContinueButton callout = Some (startHandler true true)) /\
  (~ resumable (data r) ->
   PrimFloat.ltb 0%float (d_loaded (data r)) = true ->
     forall callout,
       renderErrorCallOut r' = Some callout ->
       tryToContinueButton callout = None) /\
  (~ resumable (data r) ->
   PrimFloat.ltb 0%float (d_loaded (data r)) = false ->
     st_overrides (next w') = st_overrides (next w)).
Proof.
  intros Hprev Hcur w' r'.
  pose proof (commit_stop_overrides prev r c now w Hprev Hcur) as Hw'.
  fold w' in Hw'.
  assert (Herr : errors r' = errors r) by reflexivity.
  split; [|split].
  - intros Hres Hne.
    assert (Hset : overrides r' = Some (partialResults (data r))).
    { unfold overrides. subst r'. cbn [rerender state]. rewrite Hw'.
      by apply isRunningEffect_stopped_resumable. }
    unfold renderErrorCallOut. rewrite Herr, Hset.
    destruct (errors r) as [|e l]; [done|]. cbn [length Nat.ltb Nat.leb].
    eexists. split; reflexivity.
  - intros Hres Hpos callout.
    assert (Hset : overrides r' = None).
    { unfold overrides. subst r'. cbn [rerender state]. rewrite Hw'.
      by apply isRunningEffect_stopped_loaded. }
    unfold renderErrorCallOut. rewrite Hset.
    destruct (Nat.ltb _ _); [|discriminate]. by intros [= <-].
  - intros Hres Hzero. rewrite Hw'.
    rewrite <- resumable_spec in Hres. apply not_true_is_false in Hres.
    unfold isRunningEffect. rewrite Hcur. cbn [negb]. cbv zeta.
    rewrite Hres, Hzero. unfold skip.
    destruct (onMountOr (Some prev) c); [|reflexivity].
    apply skippedFieldsEffect_overrides.
Qed.

(* =================================================================== *)
(** *** What is shown *)
(* =================================================================== *)

Context {GroupTableItem GroupItem : Type}.
Context (groupItemsSortedByUniqueness : GroupTableItem -> list GroupItem).

Local Abbreviation groupItemCount :=
  (groupItemCount groupItemsSortedByUniqueness).
Local Abbreviation foundGroups := (foundGroups groupItemsSortedByUniqueness).
Local Abbreviation disabledGroupResultsSwitch :=
  (disabledGroupResultsSwitch groupItemsSortedByUniqueness).
Local Abbreviation showsGroupResultsHelp :=
  (showsGroupResultsHelp groupItemsSortedByUniqueness).

Lemma groupItemCount_from (groupTableItems : list GroupTableItem) (n : nat) :
  foldl (fun p c => (p + length (groupItemsSortedByUniqueness c))%nat)
        n groupTableItems
  = (n + groupItemCount groupTableItems)%nat.
Proof.
  unfold LogRateAnalysis.groupItemCount.
  revert n. induction groupTableItems as [|g l IH]; intros n; cbn [foldl].
  - lia.
  - rewrite IH, (IH (0 + _)%nat). lia.
Qed.

Lemma groupItemCount_pos (groupTableItems : list GroupTableItem) :
  (0 < groupItemCount groupTableItems)%nat <->
  exists g, g ∈ groupTableItems /\ groupItemsSortedByUniqueness g <> [].
Proof.
  induction groupTableItems as [|g l IH].
  - cbn. split; [lia|]. intros (g & Hin & _). by apply elem_of_nil in Hin.
  - unfold LogRateAnalysis.groupItemCount. cbn [foldl].
    rewrite groupItemCount_from. split.
    + intros Hpos.
      destruct (groupItemsSortedByUniqueness g) as [|x xs] eqn:Hg.
      * cbn [length] in Hpos.
        destruct (proj1 IH) as (g' & Hin & Hne); [lia|].
        exists g'. split; [by apply list_elem_of_further | exact Hne].
      * exists g. split; [apply list_elem_of_here | by rewrite Hg].
    + intros (g' & Hin & Hne). apply elem_of_cons in Hin as [-> | Hin].
      * destruct (groupItemsSortedByUniqueness g); [done|]. cbn [length]. lia.
      * assert (0 < groupItemCount l)%nat by (apply IH; eauto). lia.
Qed.

(** X12. Groups count as found exactly when some row of the groups table
    has at least one item (rows without items do not count, and the
    separate test for a non-empty table adds nothing); the grouping
    switch is disabled exactly when grouping is off and no row has an
    item, so grouping that is on can always be switched off. *)
Theorem foundGroups_iff_some_group_has_items
        (groupTableItems : list GroupTableItem) (r : Render) :
  (foundGroups groupTableItems = true <->
     exists g, g ∈ groupTableItems /\ groupItemsSortedByUniqueness g <> []) /\
  (foundGroups groupTableItems
     = Nat.ltb 0 (groupItemCount groupTableItems)) /\
  (disabledGroupResultsSwitch groupTableItems r = true <->
     groupResults r = false /\
     forall g, g ∈ groupTableItems -> groupItemsSortedByUniqueness g = []).
Proof.
  assert (Hfound : foundGroups groupTableItems = true <->
            exists g, g ∈ groupTableItems /\
                      groupItemsSortedByUniqueness g <> []).
  { unfold LogRateAnalysis.foundGroups.
    rewrite andb_true_iff, !Nat.ltb_lt, groupItemCount_pos. split.
    - by intros [_ H].
    - intros (g & Hin & Hne). split; [|eauto].
      destruct groupTableItems; [by apply elem_of_nil in Hin | cbn; lia]. }
  split; [exact Hfound|]. split.
  - unfold LogRateAnalysis.foundGroups.
    destruct groupTableItems as [|g l]; [reflexivity|]. reflexivity.
  - unfold LogRateAnalysis.disabledGroupResultsSwitch.
    rewrite andb_true_iff, !negb_true_iff. split.
    + intros [Hnot Hoff]. split; [exact Hoff|]. intros g Hin.
      destruct (groupItemsSortedByUniqueness g) as [|x xs] eqn:Hg; [done|].
      assert (foundGroups groupTableItems = true); [|congruence].
      apply Hfound. exists g. split; [exact Hin | by rewrite Hg].
    + intros [Hoff Hall]. split; [|exact Hoff].
      apply not_true_is_false. intros Htrue.
      apply Hfound in Htrue as (g & Hin & Hne). by apply Hne, Hall.
Qed.

(** X13. The results area shows at most one thing: the empty prompt, the
    groups table or the items table. With significant items exactly one
    of the two tables is shown, the groups table when grouping is on;
    without them no table is shown, and the prompt appears as soon as the
    stream is not running, so a stopped analysis never leaves the area
    blank. The grouping hint is shown only together with the groups
    table. *)
Theorem results_area_shows_one_thing
        (groupTableItems : list GroupTableItem) (r : Render) :
  (d_significantItems (data r) <> [] ->
     showsEmptyPrompt r = false /\
     showsGroupsTable r = groupResults r /\
     showsResultsTable r = negb (groupResults r)) /\
  (d_significantItems (data r) = [] ->
     showsEmptyPrompt r = negb (isRunning r) /\
     showsGroupsTable r = false /\
     showsResultsTable r = false) /\
  (showsGroupResultsHelp groupTableItems r = true ->
     showsGroupsTable r = true) /\
  (isRunning r = false ->
     showsEmptyPrompt r || showsGroupsTable r || showsResultsTable r = true).
Proof.
  unfold showsEmptyPrompt, showsGroupsTable, showsResultsTable,
    LogRateAnalysis.showsGroupResultsHelp, showLogRateAnalysisResultsTable.
  destruct (d_significantItems (data r)) as [|x l];
    cbn [length Nat.ltb Nat.leb negb andb];
    repeat split; try done; rewrite ?andb_false_r, ?andb_true_r; try done.
  - by intros ->.
  - by destruct (groupResults r).
  - intros _. by destruct (groupResults r).
Qed.


End ComponentFacts.

(** *** The properties on the sample data *)

Lemma C3_witness :
  (isRunning runningRender = true /\ isRunning stoppedRender = false /\
   resumable (data stoppedRender) /\
   st_overrides (next (commitEffects id swapBaselineAndDeviation sampleOrigin
                         (Some runningRender) false 5%float
                         stoppedRender sampleWorld))
     = Some (mkOverrides (Some 0.5%float) (Some ["host.name"]) (Some [])
                         (Some ["response_code:500"]) None)) /\
  (isRunning completedRender = false /\
   ~ resumable (data completedRender) /\
   PrimFloat.ltb 0%float (d_loaded (data completedRender)) = true /\
   st_overrides (next (commitEffects id swapBaselineAndDeviation sampleOrigin
                         (Some runningRender) false 5%float
                         completedRender sampleWorld))
     = None).
Proof.
  assert (Hres : resumable (data stoppedRender)).
  { split; [reflexivity|]. left. exists "host.name", []. reflexivity. }
  assert (Hdone : ~ resumable (data completedRender)).
  { intros [Hlt _]. vm_compute in Hlt. discriminate Hlt. }
  split.
  - split; [reflexivity|]. split; [reflexivity|]. split; [exact Hres|].
    exact (proj1 (proj1 (C3_overrides_when_stream_stops
                           id swapBaselineAndDeviation sampleOrigin
                           runningRender stoppedRender false 5%float
                           sampleWorld eq_refl eq_refl) Hres)).
  - split; [reflexivity|]. split; [exact Hdone|]. split; [reflexivity|].
    exact (proj2 (C3_overrides_when_stream_stops
                    id swapBaselineAndDeviation sampleOrigin
                    runningRender completedRender false 5%float
                    sampleWorld eq_refl eq_refl) Hdone eq_refl).
Defined.

Lemma C4_witness :
  exists c,
    renderErrorCallOut stoppedRender = Some c /\
    errors stoppedRender = ["stream closed"; "partial failure"] /\
    errorCount c = length (errors stoppedRender) /\
    (is_Some (tryToContinueButton c) <-> is_Some (overrides stoppedRender)).
Proof.
  eexists. split; [reflexivity|]. split; [reflexivity|].
  pose proof (proj2 (proj2 (C4_error_callout stoppedRender)) _ eq_refl)
    as (Hcount & _ & _ & Hbutton & _).
  split; [exact Hcount | exact Hbutton].
Defined.

Lemma C5_witness :
  exists p,
    startParams id swapBaselineAndDeviation sampleOrigin
      (rerender completedRender
         (onFieldsFilterChange ["url.path"] completedRender sampleWorld))
      = Some p /\
    b_overrides (p_body p)
      = Some (mkOverrides (Some 0%float) (Some ["host.name"])
                          (Some ["message"]) None (Some false)).
Proof.
  eexists. split; [reflexivity|].
  pose proof (C5_onFieldsFilterChange id swapBaselineAndDeviation
                sampleOrigin ["url.path"] completedRender sampleWorld)
    as (_ & _ & _ & _ & _ & _ & _ & _ & Hstart).
  exact (proj1 (Hstart _ eq_refl)).
Defined.

Lemma C6_witness :
  exists p,
    startParams id swapBaselineAndDeviation sampleOrigin runningRender
      = Some p /\
    aborted (p_abortCtrl p (refs sampleWorld)) = false /\
    aborted (p_abortCtrl p (refs (cancelHandler runningRender sampleWorld)))
      = true.
Proof.
  eexists. split; [reflexivity|]. split; [reflexivity|].
  pose proof (C6_cancelHandler id swapBaselineAndDeviation sampleOrigin
                runningRender sampleWorld)
    as (_ & _ & _ & _ & _ & Hshared).
  exact (proj2 (Hshared runningRender _ eq_refl)).
Defined.

Lemma C9_witness :
  (exists p,
     startParams id swapBaselineAndDeviation sampleOrigin dipRender = Some p /\
     analysisType dipRender = DIP /\
     b_windowParameters (p_body p)
       = mkWindowParameters 30%float 40%float 10%float 20%float) /\
  (chartWindowParameters noWindowRender = None /\
   startParams id swapBaselineAndDeviation sampleOrigin noWindowRender = None /\
   dispatched (commitEffects id swapBaselineAndDeviation sampleOrigin
                 None true 5%float noWindowRender sampleWorld) = []).
Proof.
  split.
  - eexists. split; [reflexivity|]. split; [reflexivity|].
    refine (proj2 (proj1 (C9_startParams id swapBaselineAndDeviation
                            sampleOrigin dipRender) _ sampleWindow
                         eq_refl eq_refl) eq_refl).
  - split; [reflexivity|].
    pose proof (proj2 (C9_startParams id swapBaselineAndDeviation
                         sampleOrigin noWindowRender)
                      (or_introl eq_refl)) as [Hnone Hquiet].
    split; [exact Hnone|].
    exact (Hquiet None true 5%float sampleWorld).
Defined.

Lemma C10_witness :
  skippedFields completedRender = None /\
  st_skippedFields
    (next (skippedFieldsEffect completedRender sampleWorld))
    = Some ["url.path"] /\
  st_skippedFields
    (next (storeUpdates id swapBaselineAndDeviation sampleOrigin
             [mkStoreUpdate (store stoppedRender) true 7%float;
              mkStoreUpdate (store completedRender) true 9%float]
             (rerender completedRender
                (onFieldsFilterChange ["message"] completedRender sampleWorld),
              onFieldsFilterChange ["message"] completedRender sampleWorld)).2)
    = Some ["message"].
Proof.
  destruct (@C10_skippedFields_initialised_once string string unit
              id swapBaselineAndDeviation sampleOrigin)
    as (_ & _ & Hinit & _ & Hkeep).
  split; [reflexivity|]. split.
  - apply (Hinit completedRender sampleWorld); [reflexivity|discriminate].
  - apply Hkeep.
Defined.

Lemma start_is_issued_once_witness :
  exists p,
    startParams id swapBaselineAndDeviation sampleOrigin
      (rerender completedRender (handle Refresh completedRender sampleWorld))
      = Some p /\
    dispatched (step id swapBaselineAndDeviation sampleOrigin
                  (UserEvent Refresh true 1%float)
                  (completedRender, sampleWorld)).2
      = [resetResults; clearAllRowState; setCurrentAnalysisType SPIKE;
         setCurrentAnalysisWindowParameters (Some sampleWindow);
         startStream p].
Proof.
  eexists. split; [reflexivity|].
  exact (proj1 (start_is_issued_once id swapBaselineAndDeviation sampleOrigin
                  Refresh completedRender sampleWorld true 1%float
                  false 2%float _ eq_refl eq_refl eq_refl)).
Defined.

Lemma dropped_start_is_never_retried_witness :
  startParams id swapBaselineAndDeviation sampleOrigin
    (rerender noWindowRender (handle Refresh noWindowRender sampleWorld))
    = None /\
  List.filter isStartStream
    (dispatched (run id swapBaselineAndDeviation sampleOrigin sampleEvents
                   (step id swapBaselineAndDeviation sampleOrigin
                      (UserEvent Refresh true 1%float)
                      (noWindowRender, sampleWorld))).2)
    = [].
Proof.
  split; [reflexivity|].
  exact (proj1 (dropped_start_is_never_retried
                  id swapBaselineAndDeviation sampleOrigin
                  Refresh noWindowRender sampleWorld true 1%float sampleEvents
                  eq_refl eq_refl eq_refl)).
Defined.

Lemma follow_up_render_changes_nothing_witness :
  state stoppedRender = next sampleWorld /\
  skippedFields
    (rerender stoppedRender
       (commitEffects id swapBaselineAndDeviation sampleOrigin
          (Some runningRender) true 5%float stoppedRender sampleWorld))
    = Some ["url.path"] /\
  commitEffects id swapBaselineAndDeviation sampleOrigin
    (Some stoppedRender) true 6%float
    (rerender stoppedRender
       (commitEffects id swapBaselineAndDeviation sampleOrigin
          (Some runningRender) true 5%float stoppedRender sampleWorld))
    (commitEffects id swapBaselineAndDeviation sampleOrigin
       (Some runningRender) true 5%float stoppedRender sampleWorld)
  = commitEffects id swapBaselineAndDeviation sampleOrigin
      (Some runningRender) true 5%float stoppedRender sampleWorld.
Proof.
  split; [reflexivity|]. split; [reflexivity|].
  apply (follow_up_render_changes_nothing
           id swapBaselineAndDeviation sampleOrigin
           (Some runningRender) stoppedRender sampleWorld true 5%float
           true 6%float eq_refl).
  intros _. discriminate.
Defined.

Lemma refresh_keeps_field_selection_witness :
  st_skippedFields
    (next (run id swapBaselineAndDeviation sampleOrigin sampleEvents
             (step id swapBaselineAndDeviation sampleOrigin
                (UserEvent (ApplyFieldsFilter ["message"]) true 1%float)
                (completedRender, sampleWorld))).2)
    = Some ["message"].
Proof.
  refine (proj1 (refresh_keeps_field_selection
                   id swapBaselineAndDeviation sampleOrigin
                   ["message"] completedRender sampleWorld true 1%float
                   sampleEvents _)).
  repeat constructor.
Defined.

Lemma continue_button_after_stop_witness :
  isRunning runningRender = true /\ isRunning stoppedRender = false /\
  resumable (data stoppedRender) /\ errors stoppedRender <> [] /\
  exists callout,
    renderErrorCallOut
      (rerender stoppedRender
         (commitEffects id swapBaselineAndDeviation sampleOrigin
            (Some runningRender) false 5%float stoppedRender sampleWorld))
      = Some callout /\
    tryToContinueButton callout = Some (startHandler true true).
Proof.
  assert (Hres : resumable (data stoppedRender)).
  { split; [reflexivity|]. left. exists "host.name", []. reflexivity. }
  assert (Herr : errors stoppedRender <> []) by discriminate.
  split; [reflexivity|]. split; [reflexivity|]. split; [exact Hres|].
  split; [exact Herr|].
  exact (proj1 (continue_button_after_stop
                  id swapBaselineAndDeviation sampleOrigin
                  runningRender stoppedRender false 5%float sampleWorld
                  eq_refl eq_refl) Hres Herr).
Defined.

Lemma foundGroups_witness :
  foundGroups (@id (list string)) sampleGroups = true /\
  foundGroups (@id (list string)) [ []; [] ]
    = Nat.ltb 0 (groupItemCount (@id (list string)) [ []; [] ]) /\
  disabledGroupResultsSwitch (@id (list string)) [ []; [] ] stoppedRender
    = true.
Proof.
  split; [|split].
  - apply (proj1 (foundGroups_iff_some_group_has_items
                    (@id (list string)) sampleGroups stoppedRender)).
    exists ["response_code:500"; "url.path:/login"].
    split; [|discriminate]. apply list_elem_of_further, list_elem_of_here.
  - exact (proj1 (proj2 (foundGroups_iff_some_group_has_items
                           (@id (list string)) [ []; [] ] stoppedRender))).
  - apply (proj2 (proj2 (foundGroups_iff_some_group_has_items
                           (@id (list string)) [ []; [] ] stoppedRender))).
    split; [reflexivity|]. intros g Hin.
    apply elem_of_cons in Hin as [-> | Hin]; [reflexivity|].
    apply elem_of_cons in Hin as [-> | Hin]; [reflexivity|].
    by apply elem_of_nil in Hin.
Defined.

Lemma results_area_witness :
  d_significantItems (data stoppedRender) <> [] /\
  showsEmptyPrompt stoppedRender = false /\
  showsGroupsTable stoppedRender = false /\
  showsResultsTable stoppedRender = true.
Proof.
  assert (Hitems : d_significantItems (data stoppedRender) <> [])
    by discriminate.
  split; [exact Hitems|].
  exact (proj1 (results_area_shows_one_thing (@id (list string)) sampleGroups
                  stoppedRender) Hitems).
Defined.


End LogRateAnalysis.

Module CatalogFacts.
Import DashboardCatalog.

Lemma entries_keys :
  AGENT_NAME_DASHBOARD_FILE_MAPPING_entries.*1 = agent_identifiers.
Proof. reflexivity. Qed.

Lemma agent_identifiers_NoDup : NoDup agent_identifiers.
Proof. apply (bool_decide_unpack _). vm_compute. exact I. Qed.

Lemma lookup_entry k v :
  AGENT_NAME_DASHBOARD_FILE_MAPPING !! k = Some v <->
  (k, v) ∈ AGENT_NAME_DASHBOARD_FILE_MAPPING_entries.
Proof.
  unfold AGENT_NAME_DASHBOARD_FILE_MAPPING. symmetry.
  apply elem_of_list_to_map.
  rewrite entries_keys. apply agent_identifiers_NoDup.
Qed.

Lemma lookup_unlisted k :
  k ∉ agent_identifiers -> AGENT_NAME_DASHBOARD_FILE_MAPPING !! k = None.
Proof.
  intros Hk. apply not_elem_of_list_to_map. by rewrite entries_keys.
Qed.

Lemma dom_mapping :
  dom AGENT_NAME_DASHBOARD_FILE_MAPPING = list_to_set agent_identifiers.
Proof.
  unfold AGENT_NAME_DASHBOARD_FILE_MAPPING.
  rewrite dom_list_to_map_L. by rewrite entries_keys.
Qed.

End CatalogFacts.

Module CatalogProperties.
Import DashboardCatalog CatalogFacts.

Lemma entry_values_are_bundles k v :
  (k, v) ∈ AGENT_NAME_DASHBOARD_FILE_MAPPING_entries -> v ∈ bundle_names.
Proof.
  intros Hin.
  assert (Hall : Forall (fun kv => kv.2 ∈ bundle_names)
                        AGENT_NAME_DASHBOARD_FILE_MAPPING_entries).
  { apply (bool_decide_unpack _). vm_compute. exact I. }
  rewrite Forall_forall in Hall. exact (Hall (k, v) Hin).
Qed.

Lemma bundles_are_loaded v :
  v ∈ bundle_names ->
  exists chunk, loadDashboardFile v = ReturnImport (mkImport chunk (json_module v)).
Proof.
  unfold bundle_names. rewrite !elem_of_cons, elem_of_nil.
  intros [-> | [-> | [-> | [-> | [-> | []]]]]]; eexists; reflexivity.
Qed.

(** C1. The catalog maps each of the nine agent identifiers as listed,
    has an entry for no other key, and the values it takes are exactly
    the five bundle names. *)
Theorem C1_catalog_entries :
  AGENT_NAME_DASHBOARD_FILE_MAPPING !! "nodejs" = Some "nodejs" /\
  AGENT_NAME_DASHBOARD_FILE_MAPPING !! "opentelemetry/nodejs"
    = Some "opentelemetry_nodejs" /\
  AGENT_NAME_DASHBOARD_FILE_MAPPING !! "java" = Some "java" /\
  AGENT_NAME_DASHBOARD_FILE_MAPPING !! "opentelemetry/java"
    = Some "opentelemetry_java" /\
  AGENT_NAME_DASHBOARD_FILE_MAPPING
    !! "opentelemetry/java/opentelemetry-java-instrumentation"
    = Some "opentelemetry_java" /\
  AGENT_NAME_DASHBOARD_FILE_MAPPING !! "opentelemetry/java/elastic"
    = Some "opentelemetry_java" /\
  AGENT_NAME_DASHBOARD_FILE_MAPPING !! "opentelemetry/dotnet"
    = Some "opentelemetry_dotnet" /\
  AGENT_NAME_DASHBOARD_FILE_MAPPING
    !! "opentelemetry/dotnet/opentelemetry-dotnet-instrumentation"
    = Some "opentelemetry_dotnet" /\
  AGENT_NAME_DASHBOARD_FILE_MAPPING !! "opentelemetry/dotnet/elastic"
    = Some "opentelemetry_dotnet" /\
  size AGENT_NAME_DASHBOARD_FILE_MAPPING = 9%nat /\
  (forall key,
     is_Some (AGENT_NAME_DASHBOARD_FILE_MAPPING !! key) <->
     key ∈ [ "nodejs"; "opentelemetry/nodejs"; "java"; "opentelemetry/java";
             "opentelemetry/java/opentelemetry-java-instrumentation";
             "opentelemetry/java/elastic"; "opentelemetry/dotnet";
             "opentelemetry/dotnet/opentelemetry-dotnet-instrumentation";
             "opentelemetry/dotnet/elastic" ]) /\
  (forall value,
     (exists key, AGENT_NAME_DASHBOARD_FILE_MAPPING !! key = Some value) <->
     value ∈ [ "nodejs"; "opentelemetry_nodejs"; "java";
               "opentelemetry_java"; "opentelemetry_dotnet" ]).
Proof.
  repeat match goal with
         | |- (_ !! _ = Some _) /\ _ => split; [by vm_compute|]
         end.
  split; [|split].
  - rewrite <- size_dom, dom_mapping.
    rewrite size_list_to_set by apply agent_identifiers_NoDup. reflexivity.
  - intros key. rewrite <- elem_of_dom, dom_mapping, elem_of_list_to_set.
    reflexivity.
  - intros value. split.
    + intros [key Hkey]. apply lookup_entry in Hkey.
      exact (entry_values_are_bundles _ _ Hkey).
    + rewrite !elem_of_cons, elem_of_nil.
      intros [-> | [-> | [-> | [-> | [-> | []]]]]].
      * by exists "nodejs".
      * by exists "opentelemetry/nodejs".
      * by exists "java".
      * by exists "opentelemetry/java".
      * by exists "opentelemetry/dotnet".
Qed.

(** C2. A file name that is none of the five bundle names makes
    [loadDashboardFile] return undefined; an agent identifier that is
    none of the nine keys has no entry in the catalog; so looking such a
    key up and loading the result yields no dashboard. *)
Theorem C2_unrecognised_resolve_to_nothing :
  (forall filename,
     filename ∉ [ "nodejs"; "opentelemetry_nodejs"; "java";
                  "opentelemetry_java"; "opentelemetry_dotnet" ] ->
     loadDashboardFile filename = ReturnUndefined) /\
  (forall key,
     key ∉ agent_identifiers ->
     AGENT_NAME_DASHBOARD_FILE_MAPPING !! key = None /\
     loadDashboardForAgent key = ReturnUndefined).
Proof.
  split.
  - intros filename Hnot. unfold loadDashboardFile.
    repeat match goal with
           | |- context [String.eqb filename ?s] =>
               destruct (String.eqb_spec filename s) as [-> | _];
               [exfalso; apply Hnot; set_solver|]
           end.
    reflexivity.
  - intros key Hnot. pose proof (lookup_unlisted key Hnot) as Hnone.
    split; [exact Hnone|]. unfold loadDashboardForAgent. by rewrite Hnone.
Qed.

(** C7. For each of the five bundle file names [loadDashboardFile]
    returns the dynamic import of the JSON module of that name. *)
Theorem C7_bundles_load_their_json :
  loadDashboardFile "nodejs"
    = ReturnImport (mkImport "lazyNodeJsDashboard" "./nodejs.json") /\
  loadDashboardFile "opentelemetry_nodejs"
    = ReturnImport (mkImport "lazyNodeJsDashboard" "./opentelemetry_nodejs.json") /\
  loadDashboardFile "java"
    = ReturnImport (mkImport "lazyJavaDashboard" "./java.json") /\
  loadDashboardFile "opentelemetry_java"
    = ReturnImport (mkImport "lazyJavaDashboard" "./opentelemetry_java.json") /\
  loadDashboardFile "opentelemetry_dotnet"
    = ReturnImport (mkImport "lazyOtelDotnetDashboard" "./opentelemetry_dotnet.json") /\
  Forall (fun filename =>
            exists chunk, loadDashboardFile filename
              = ReturnImport (mkImport chunk (json_module filename)))
         bundle_names.
Proof.
  repeat (split; [reflexivity|]).
  apply Forall_forall. intros filename. apply bundles_are_loaded.
Qed.

(** C8. Every value the catalog maps a key to is one of the five file
    names that [loadDashboardFile] handles, so loading the dashboard of
    a catalogued agent identifier returns an import and never the
    undefined of the default branch. *)
Theorem C8_catalogued_agents_load (key filename : string) :
  AGENT_NAME_DASHBOARD_FILE_MAPPING !! key = Some filename ->
  filename ∈ bundle_names /\
  (exists chunk,
     loadDashboardFile filename
       = ReturnImport (mkImport chunk (json_module filename)) /\
     loadDashboardForAgent key
       = ReturnImport (mkImport chunk (json_module filename))) /\
  loadDashboardForAgent key <> ReturnUndefined.
Proof.
  intros Hkey.
  assert (Hin : filename ∈ bundle_names).
  { apply lookup_entry in Hkey. exact (entry_values_are_bundles _ _ Hkey). }
  destruct (bundles_are_loaded _ Hin) as [chunk Hload].
  unfold loadDashboardForAgent. rewrite Hkey, Hload.
  split; [exact Hin|]. split; [|discriminate].
  exists chunk. split; reflexivity.
Qed.

Lemma C2_witness :
  loadDashboardFile "python" = ReturnUndefined /\
  AGENT_NAME_DASHBOARD_FILE_MAPPING !! "python" = None /\
  loadDashboardForAgent "python" = ReturnUndefined.
Proof.
  destruct C2_unrecognised_resolve_to_nothing as [Hfile Hkey].
  split.
  - apply Hfile. apply (bool_decide_unpack _). vm_compute. exact I.
  - apply Hkey. apply (bool_decide_unpack _). vm_compute. exact I.
Defined.

Lemma C8_witness :
  AGENT_NAME_DASHBOARD_FILE_MAPPING !! "opentelemetry/java/elastic"
    = Some "opentelemetry_java" /\
  loadDashboardForAgent "opentelemetry/java/elastic" <> ReturnUndefined.
Proof.
  assert (Hkey : AGENT_NAME_DASHBOARD_FILE_MAPPING
                   !! "opentelemetry/java/elastic"
                 = Some "opentelemetry_java") by (vm_compute; reflexivity).
  split; [exact Hkey|].
  exact (proj2 (proj2 (C8_catalogued_agents_load _ _ Hkey))).
Defined.


Lemma loadDashboardFile_unlisted filename :
  filename ∉ bundle_names -> loadDashboardFile filename = ReturnUndefined.
Proof.
  intros Hnot. unfold loadDashboardFile.
  repeat match goal with
         | |- context [String.eqb filename ?s] =>
             destruct (String.eqb_spec filename s) as [-> | _];
             [exfalso; apply Hnot; set_solver|]
         end.
  reflexivity.
Qed.

(** X1. [loadDashboardFile] returns an import exactly for the five bundle
    names, and the module it imports determines the name: two file names
    never load the same JSON module. Likewise an agent identifier gets a
    dashboard exactly when it is one of the nine catalogued keys. *)
Theorem imports_identify_bundles :
  (forall filename,
     (exists i, loadDashboardFile filename = ReturnImport i) <->
     filename ∈ bundle_names) /\
  (forall f g i j,
     loadDashboardFile f = ReturnImport i ->
     loadDashboardFile g = ReturnImport j ->
     specifier i = specifier j -> f = g) /\
  (forall key,
     (exists i, loadDashboardForAgent key = ReturnImport i) <->
     key ∈ agent_identifiers).
Proof.
  assert (Hiff : forall filename,
             (exists i, loadDashboardFile filename = ReturnImport i) <->
             filename ∈ bundle_names).
  { intros filename. split.
    - intros [i Hi]. destruct (decide (filename ∈ bundle_names)) as [|Hnot];
        [done|]. rewrite (loadDashboardFile_unlisted _ Hnot) in Hi.
      discriminate.
    - intros Hin. destruct (bundles_are_loaded _ Hin) as [chunk ->]. eauto. }
  split; [exact Hiff|]. split.
  - intros f g i j Hf Hg Hspec.
    assert (Hfin : f ∈ bundle_names) by (apply Hiff; eauto).
    assert (Hgin : g ∈ bundle_names) by (apply Hiff; eauto).
    destruct (bundles_are_loaded _ Hfin) as [cf Hf'].
    destruct (bundles_are_loaded _ Hgin) as [cg Hg'].
    rewrite Hf' in Hf. rewrite Hg' in Hg.
    injection Hf as <-. injection Hg as <-. cbn [specifier] in Hspec.
    clear Hf' Hg'. unfold bundle_names in Hfin, Hgin.
    rewrite !elem_of_cons, elem_of_nil in Hfin, Hgin.
    destruct Hfin as [-> | [-> | [-> | [-> | [-> | []]]]]];
      destruct Hgin as [-> | [-> | [-> | [-> | [-> | []]]]]];
      try reflexivity; vm_compute in Hspec; discriminate Hspec.
  - intros key. unfold loadDashboardForAgent. split.
    + intros [i Hi].
      destruct (AGENT_NAME_DASHBOARD_FILE_MAPPING !! key) as [v|] eqn:Hkey;
        [|discriminate].
      apply lookup_entry in Hkey.
      rewrite <- entries_keys. apply list_elem_of_fmap. by exists (key, v).
    + intros Hin. rewrite <- entries_keys in Hin.
      apply list_elem_of_fmap in Hin as ([k v] & -> & Hin). cbn [fst].
      pose proof (entry_values_are_bundles _ _ Hin) as Hv.
      apply lookup_entry in Hin. rewrite Hin. by apply Hiff.
Qed.

Lemma imports_identify_bundles_witness :
  loadDashboardFile "java"
    = ReturnImport (mkImport "lazyJavaDashboard" "./java.json") /\
  "java" ∈ bundle_names.
Proof.
  assert (Hload : loadDashboardFile "java"
                  = ReturnImport (mkImport "lazyJavaDashboard" "./java.json"))
    by reflexivity.
  split; [exact Hload|].
  apply (proj1 imports_identify_bundles "java"). eexists. exact Hload.
Defined.

End CatalogProperties.
